(** * Voice-driven symptom triage: the conversation engine of cureltyix

    A shallow embedding of
      - [src/components/AIVoiceConsultation.tsx] (the React component that owns
        the conversation state and drives capture and playback),
      - [src/services/voiceService.ts] (the speech channel), and
      - [src/services/aiService.ts] (the analysis gateway and its fallback),
    followed by the properties of the specification that were settled on it.

    Modelling conventions.
      - A JavaScript string is a [string]: a sequence of 8-bit characters.
        Utterances are ASCII text (the recognizer runs with lang en-US); on
        ASCII, [toLowerCase], [toUpperCase] and [trim] below agree with the
        JavaScript methods.  A character above 127 is neither a letter nor
        white space here.
      - React state ([useState]) is a field of [Component] holding the latest
        value; a handler reads the values its closure captured, a [Render].
      - [useRef] cells and the singleton voice service are fields of
        [Component]: shared mutable state, threaded explicitly.
      - [setTimeout] adds a [Timer] (a defunctionalised closure) to the
        pending timers; [clearTimeout] removes it.
      - A [throw] is the [Throw] constructor of [Result]. *)

From Stdlib Require Import String Ascii List Bool ZArith NArith Lia.
Import ListNotations.
Local Open Scope string_scope.
Local Open Scope bool_scope.

(** ** JavaScript strings *)

Module Js.

Definition code (c : ascii) : N := N_of_ascii c.

Definition isUpper (c : ascii) : bool := (65 <=? code c)%N && (code c <=? 90)%N.
Definition isLower (c : ascii) : bool := (97 <=? code c)%N && (code c <=? 122)%N.

Definition lowerChar (c : ascii) : ascii :=
  if isUpper c then ascii_of_N (code c + 32) else c.
Definition upperChar (c : ascii) : ascii :=
  if isLower c then ascii_of_N (code c - 32) else c.

(** [String.prototype.toLowerCase] *)
Fixpoint toLowerCase (s : string) : string :=
  match s with
  | EmptyString => EmptyString
  | String c r => String (lowerChar c) (toLowerCase r)
  end.

(** [String.prototype.toUpperCase] *)
Fixpoint toUpperCase (s : string) : string :=
  match s with
  | EmptyString => EmptyString
  | String c r => String (upperChar c) (toUpperCase r)
  end.

(** [s.startsWith(pat)] *)
Fixpoint startsWith (s pat : string) {struct pat} : bool :=
  match pat with
  | EmptyString => true
  | String a pat' =>
      match s with
      | EmptyString => false
      | String b s' => Ascii.eqb a b && startsWith s' pat'
      end
  end.

(** [s.includes(pat)]: [pat] occurs in [s] at some position. *)
Fixpoint includes (s pat : string) : bool :=
  startsWith s pat ||
  match s with
  | EmptyString => false
  | String _ r => includes r pat
  end.

(** [s.charAt(0)]: the first character as a string, or the empty string. *)
Definition charAt0 (s : string) : string :=
  match s with
  | EmptyString => EmptyString
  | String c _ => String c EmptyString
  end.

(** [s.slice(1)] *)
Definition slice1 (s : string) : string :=
  match s with
  | EmptyString => EmptyString
  | String _ r => r
  end.

(** White space and line terminators of ECMAScript, within ASCII. *)
Definition isWhiteSpace (c : ascii) : bool :=
  let n := code c in
  ((9 <=? n)%N && (n <=? 13)%N) || (n =? 32)%N.

Fixpoint trimStart (s : string) : string :=
  match s with
  | EmptyString => EmptyString
  | String c r => if isWhiteSpace c then trimStart r else s
  end.

Fixpoint trimEnd (s : string) : string :=
  match s with
  | EmptyString => EmptyString
  | String c r =>
      match trimEnd r with
      | EmptyString => if isWhiteSpace c then EmptyString else String c EmptyString
      | r' => String c r'
      end
  end.

(** [String.prototype.trim] *)
Definition trim (s : string) : string := trimEnd (trimStart s).

(** Truthiness of a string: the empty string is the only falsy one. *)
Definition truthy (s : string) : bool :=
  match s with
  | EmptyString => false
  | String _ _ => true
  end.

(** [arr.join(sep)] on an array of strings. *)
Definition join (sep : string) (arr : list string) : string := String.concat sep arr.

(** [arr.includes(x)] on an array of strings. *)
Definition arrayIncludes (arr : list string) (x : string) : bool :=
  existsb (String.eqb x) arr.

(** [[...new Set(arr)]]: the distinct elements, in order of first occurrence. *)
Fixpoint uniq (arr : list string) : list string :=
  match arr with
  | [] => []
  | x :: r => x :: filter (fun y => negb (String.eqb x y)) (uniq r)
  end.

(** [pat] occurs in [s]: the meaning of [includes]. *)
Definition Substring (pat s : string) : Prop :=
  exists before after, s = before ++ pat ++ after.

(** Every character of [s] is white space. *)
Fixpoint isBlank (s : string) : bool :=
  match s with
  | EmptyString => true
  | String c r => isWhiteSpace c && isBlank r
  end.

(** The line feed of a template literal that spans lines. *)
Definition nl : string := String (ascii_of_N 10) EmptyString.
(** The double quote character. *)
Definition dq : string := String (ascii_of_N 34) EmptyString.

(** A value read from an object produced by [JSON.parse], as far as the
    callers observe it: whether [||] takes it, whether it is a string (the
    only values with a [toUpperCase] method), and how a template literal
    renders it. *)
Inductive Value :=
| Undefined
| Null
| Str (s : string)
| Arr (items : list string)
| Other (isTruthy : bool) (shown : string).

Definition valueTruthy (v : Value) : bool :=
  match v with
  | Undefined | Null => false
  | Str s => truthy s
  | Arr _ => true
  | Other t _ => t
  end.

(** [a || b] *)
Definition or (a b : Value) : Value := if valueTruthy a then a else b.

(** [`${v}`] *)
Definition show (v : Value) : string :=
  match v with
  | Undefined => "undefined"
  | Null => "null"
  | Str s => s
  | Arr items => join "," items
  | Other _ shown => shown
  end.

(** The outcome of an operation that may throw. *)
Inductive Result (A : Type) :=
| Ok (a : A)
| Throw.
Arguments Ok {A} a.
Arguments Throw {A}.

Definition bind {A B : Type} (m : Result A) (k : A -> Result B) : Result B :=
  match m with
  | Ok a => k a
  | Throw => Throw
  end.

(** [try { body } catch { handler }] *)
Definition catch {A : Type} (body handler : Result A) : Result A :=
  match body with
  | Ok a => Ok a
  | Throw => handler
  end.

(** [try { return body } catch { return handler }] with a handler that
    cannot throw. *)
Definition recover {A : Type} (body : Result A) (handler : A) : A :=
  match body with
  | Ok a => a
  | Throw => handler
  end.

(** [v.toUpperCase()]: a TypeError unless [v] is a string. *)
Definition callToUpperCase (v : Value) : Result string :=
  match v with
  | Str s => Ok (toUpperCase s)
  | _ => Throw
  end.

(** [arr[i]] for a number [i] that is an integer. *)
Definition arrayAt (arr : list string) (i : Z) : option string :=
  if (i <? 0)%Z then None else nth_error arr (Z.to_nat i).

End Js.

(** ** The analysis gateway: [src/services/aiService.ts] *)

Module AIService.
Import Js.

(** [interface SymptomAnalysis].  The fields are typed as strings in the
    source, but [parseResponse] copies them unchecked from the parsed reply,
    so at run time each holds a JavaScript value. *)
Record SymptomAnalysis := {
  priority : Value;
  recommendation : Value;
  specialty : Value;
  followUpQuestions : Value;
}.

(** What [JSON.parse] makes of the cleaned reply: a syntax error, [null]
    (every property access on it throws), or any other value, of which
    [parseResponse] reads four properties ([Undefined] where absent). *)
Inductive JsonParse :=
| SyntaxError
| ParsedNull
| Parsed (priority recommendation specialty followUpQuestions : Value).

(** The external triage oracle.
    [chatCompletion prompt] is the outcome of [client.chatCompletion] followed
    by [choices[0].message]: it throws, or yields [message?.content].
    [parseJSON response] is
    [JSON.parse(response.replace(/```json\n?|\n?```/g, '').trim())].
    [apiKey] tells whether [VITE_HUGGINGFACE_API_KEY] is set. *)
Record Oracle := {
  apiKey : bool;                       (* an API key is configured *)
  chatCompletion : string -> Result (option string);
  parseJSON : string -> JsonParse;
}.

(** [getAIService()]: the service, or a throw when no API key is found. *)
Definition getAIService (o : Oracle) : Result Oracle :=
  if apiKey o then Ok o else Throw.

Definition buildPrompt (symptoms : list string) (description : string) : string :=
  join nl
    [ "You are a medical AI assistant helping to triage patient symptoms. Analyze the following and respond in JSON format.";
      "  ";
      "  Symptoms: " ++ join ", " symptoms;
      "  Description: " ++ description;
      "  ";
      "  Provide a JSON response with:";
      "  {";
      "    " ++ dq ++ "priority" ++ dq ++ ": " ++ dq ++ "urgent|high|medium|low" ++ dq ++ ",";
      "    " ++ dq ++ "recommendation" ++ dq ++ ": " ++ dq ++ "2-3 sentences of medical advice" ++ dq ++ ",";
      "    " ++ dq ++ "specialty" ++ dq ++ ": " ++ dq ++ "recommended medical specialty" ++ dq ++ ",";
      "    " ++ dq ++ "followUpQuestions" ++ dq ++ ": [" ++ dq ++ "5-7 relevant questions for the doctor" ++ dq ++ "]";
      "  }";
      "  ";
      "  Priority levels:";
      "  - urgent: Life-threatening, needs immediate ER (chest pain, severe bleeding, loss of consciousness)";
      "  - high: Serious but not immediately life-threatening (high fever, severe pain, difficulty breathing)";
      "  - medium: Moderate symptoms needing attention within days (persistent headache, mild fever)";
      "  - low: Minor symptoms (single mild symptom, general discomfort)";
      "  ";
      "  Respond ONLY with valid JSON, no other text." ].

Definition callAIModel (o : Oracle) (prompt : string) : Result (option string) :=
  chatCompletion o prompt.

Definition parseResponse (o : Oracle) (response : string) : Result SymptomAnalysis :=
  match parseJSON o response with
  | SyntaxError => Throw
  | ParsedNull => Throw
  | Parsed p r s f =>
      Ok {| priority := or p (Str "medium");
            recommendation := or r (Str "Please consult with a healthcare provider.");
            specialty := or s (Str "General Practitioner");
            followUpQuestions := or f (Arr []) |}
  end.

Definition critical : list string :=
  [ "chest pain"; "severe bleeding"; "unconscious"; "not breathing"; "seizure"; "stroke" ].

Definition highPriority : list string :=
  [ "fever"; "difficulty breathing"; "severe pain"; "vomiting"; "dehydration" ].

(** [markers.some(m => symptomsLower.some(s => s.includes(m)) || descLower.includes(m))] *)
Definition someMarker (markers symptomsLower : list string) (descLower : string) : bool :=
  existsb (fun m => existsb (fun s => includes s m) symptomsLower || includes descLower m)
          markers.

Definition getFallbackAnalysis (symptoms : list string) (description : string)
  : SymptomAnalysis :=
  let symptomsLower := map toLowerCase symptoms in
  let descLower := toLowerCase description in
  if someMarker critical symptomsLower descLower then
    {| priority := Str "urgent";
       recommendation := Str "Seek immediate emergency medical attention. Call emergency services or go to the nearest emergency room immediately.";
       specialty := Str "Emergency Medicine";
       followUpQuestions :=
         Arr [ "When did these symptoms start?";
               "Have you experienced this before?";
               "Are you taking any medications?" ] |}
  else if someMarker highPriority symptomsLower descLower then
    {| priority := Str "high";
       recommendation := Str "Please consult with a healthcare provider within 24 hours. Your symptoms require medical attention.";
       specialty := Str "General Practitioner";
       followUpQuestions :=
         Arr [ "When did these symptoms begin?";
               "Have you taken any medication?";
               "Do you have any chronic conditions?" ] |}
  else
    {| priority := Str "medium";
       recommendation := Str "Please schedule an appointment with a healthcare provider within the next few days to discuss your symptoms.";
       specialty := Str "General Practitioner";
       followUpQuestions :=
         Arr [ "How long have you had these symptoms?";
               "Have the symptoms gotten worse?";
               "Are you experiencing any other issues?" ] |}.

(** [response?.content || ""] *)
Definition contentOrEmpty (content : option string) : string :=
  match content with
  | Some s => s
  | None => EmptyString
  end.

Definition analyzeSymptoms (o : Oracle) (symptoms : list string) (description : string)
  : Result SymptomAnalysis :=
  catch
    (let prompt := buildPrompt symptoms description in
     bind (callAIModel o prompt) (fun response =>
     parseResponse o (contentOrEmpty response)))
    (Ok (getFallbackAnalysis symptoms description)).

End AIService.

(** ** The speech channel: [src/services/voiceService.ts]

    The model covers browsers that provide [window.speechSynthesis] (the
    constructor reads it unconditionally), so [isSpeechSynthesisSupported()]
    holds and the early exit of [speak] is not taken.  A callback handed to the
    service is recorded by the closure data [K] it was built from. *)

Module VoiceService.
Import Js.

Section Service.
Variable K : Type.

Record t := {
  recognition : bool;               (* this.recognition !== null *)
  handlers : option K;              (* what onresult and onerror call back *)
  isListening : bool;               (* this.isListening *)
  speaking : bool;                  (* this.synthesis.speaking *)
  currentUtterance : option (string * K);
}.

Definition isSpeechRecognitionSupported (vs : t) : bool := recognition vs.

Definition getIsListening (vs : t) : bool := isListening vs.

Definition stopListening (vs : t) : t :=
  if recognition vs && isListening vs then
    {| recognition := recognition vs; handlers := handlers vs;
       isListening := false;
       speaking := speaking vs; currentUtterance := currentUtterance vs |}
  else vs.

(** [startListening(onResult, onError)].  [startOk] tells whether
    [recognition.start()] returns or throws.  The second component is the
    message passed to [onError] before returning, when there is one. *)
Definition startListening (vs : t) (k : K) (startOk : bool) : t * option string :=
  if negb (recognition vs) then
    (vs, Some "Speech recognition is not supported in this browser")
  else
    let vs := if isListening vs then stopListening vs else vs in
    let vs := {| recognition := recognition vs; handlers := Some k;
                 isListening := isListening vs;
                 speaking := speaking vs; currentUtterance := currentUtterance vs |} in
    if startOk then
      ({| recognition := recognition vs; handlers := handlers vs;
          isListening := true;
          speaking := speaking vs; currentUtterance := currentUtterance vs |}, None)
    else (vs, Some "Failed to start speech recognition").

Definition stopSpeaking (vs : t) : t :=
  if speaking vs then
    {| recognition := recognition vs; handlers := handlers vs;
       isListening := isListening vs;
       speaking := false; currentUtterance := None |}
  else vs.

(** [speak(text, options)]: cancel what is being spoken, then queue [text]. *)
Definition speak (vs : t) (text : string) (k : K) : t :=
  let vs := stopSpeaking vs in
  {| recognition := recognition vs; handlers := handlers vs;
     isListening := isListening vs;
     speaking := true; currentUtterance := Some (text, k) |}.

(** The browser reports that the utterance ended ([utterance.onend]) or
    failed ([utterance.onerror]): [currentUtterance] is reset before the
    caller's callback runs. *)
Definition utteranceDone (vs : t) : t :=
  {| recognition := recognition vs; handlers := handlers vs;
     isListening := isListening vs;
     speaking := false; currentUtterance := None |}.

(** [recognition.onerror] and [recognition.onend] both reset [isListening]. *)
Definition recognitionStopped (vs : t) : t :=
  {| recognition := recognition vs; handlers := handlers vs;
     isListening := false;
     speaking := speaking vs; currentUtterance := currentUtterance vs |}.

Definition cleanup (vs : t) : t := stopSpeaking (stopListening vs).

End Service.

Arguments recognition {K} _.
Arguments handlers {K} _.
Arguments isListening {K} _.
Arguments speaking {K} _.
Arguments currentUtterance {K} _.
Arguments isSpeechRecognitionSupported {K} _.
Arguments getIsListening {K} _.
Arguments stopListening {K} _.
Arguments startListening {K} _ _ _.
Arguments stopSpeaking {K} _.
Arguments speak {K} _ _ _.
Arguments utteranceDone {K} _.
Arguments recognitionStopped {K} _.
Arguments cleanup {K} _.

End VoiceService.

(** ** The consultation component: [src/components/AIVoiceConsultation.tsx] *)

Module AIVoiceConsultation.
Import Js.

Inductive Stage := greeting | collecting | analyzing | complete.

Definition Stage_eqb (a b : Stage) : bool :=
  match a, b with
  | greeting, greeting | collecting, collecting
  | analyzing, analyzing | complete, complete => true
  | _, _ => false
  end.

(** [interface ConversationState] *)
Record ConversationState := {
  stage : Stage;
  turnCount : Z;
  symptoms : list string;
  fullTranscript : list string;
}.

Inductive Speaker := user | ai.

(** [interface Message], without the random [id] and the [timestamp]. *)
Record Message := {
  m_type : Speaker;
  m_text : string;
}.

(** The React state a handler reads: the values of the render whose closure
    it is. *)
Record Render := {
  r_isSpeaking : bool;
  r_isProcessing : bool;
  r_autoResumeListen : bool;
}.

(** The bodies handed to [setTimeout], each with the closure it was made in.
    [DebounceTimer] carries the value that [accumulatedTranscript] holds when
    it fires: a later final result of the same capture session replaces the
    timer together with the variable. *)
Inductive Timer :=
| DebounceTimer (r : Render) (accumulatedTranscript : string)   (* 2000 ms *)
| CaptureRetryTimer (r : Render)                                (* 500 ms *)
| GraceTimer (r : Render)                                       (* 800 ms *)
| SkipTimer (r : Render).                                       (* 500 ms *)

Record Component := {
  (* useState *)
  isListening : bool;
  isSpeaking : bool;
  isProcessing : bool;
  messages : list Message;
  interimTranscript : string;
  autoResumeListen : bool;
  (* useRef *)
  conversationState : ConversationState;
  shouldResumeListening : bool;
  processingTimeoutRef : option nat;
  (* getVoiceService() *)
  voiceService : VoiceService.t Render;
  (* the event loop and the toaster *)
  timers : list (nat * (Z * Timer));
  nextTimer : nat;
  toasts : list string;
}.

(** The state at mount, before the greeting effect runs. *)
Definition initialState : ConversationState :=
  {| stage := greeting; turnCount := 0; symptoms := []; fullTranscript := [] |}.

Definition mount (vs : VoiceService.t Render) : Component :=
  {| isListening := false; isSpeaking := false; isProcessing := false;
     messages := []; interimTranscript := EmptyString; autoResumeListen := true;
     conversationState := initialState;
     shouldResumeListening := false; processingTimeoutRef := None;
     voiceService := vs;
     timers := []; nextTimer := 0; toasts := [] |}.

(** *** Field updates *)

Definition setIsListening (b : bool) (c : Component) : Component :=
  {| isListening := b; isSpeaking := isSpeaking c; isProcessing := isProcessing c;
     messages := messages c; interimTranscript := interimTranscript c;
     autoResumeListen := autoResumeListen c;
     conversationState := conversationState c;
     shouldResumeListening := shouldResumeListening c;
     processingTimeoutRef := processingTimeoutRef c;
     voiceService := voiceService c;
     timers := timers c; nextTimer := nextTimer c; toasts := toasts c |}.

Definition setIsSpeaking (b : bool) (c : Component) : Component :=
  {| isListening := isListening c; isSpeaking := b; isProcessing := isProcessing c;
     messages := messages c; interimTranscript := interimTranscript c;
     autoResumeListen := autoResumeListen c;
     conversationState := conversationState c;
     shouldResumeListening := shouldResumeListening c;
     processingTimeoutRef := processingTimeoutRef c;
     voiceService := voiceService c;
     timers := timers c; nextTimer := nextTimer c; toasts := toasts c |}.

Definition setIsProcessing (b : bool) (c : Component) : Component :=
  {| isListening := isListening c; isSpeaking := isSpeaking c; isProcessing := b;
     messages := messages c; interimTranscript := interimTranscript c;
     autoResumeListen := autoResumeListen c;
     conversationState := conversationState c;
     shouldResumeListening := shouldResumeListening c;
     processingTimeoutRef := processingTimeoutRef c;
     voiceService := voiceService c;
     timers := timers c; nextTimer := nextTimer c; toasts := toasts c |}.

Definition setMessages (ms : list Message) (c : Component) : Component :=
  {| isListening := isListening c; isSpeaking := isSpeaking c;
     isProcessing := isProcessing c;
     messages := ms; interimTranscript := interimTranscript c;
     autoResumeListen := autoResumeListen c;
     conversationState := conversationState c;
     shouldResumeListening := shouldResumeListening c;
     processingTimeoutRef := processingTimeoutRef c;
     voiceService := voiceService c;
     timers := timers c; nextTimer := nextTimer c; toasts := toasts c |}.

Definition setInterimTranscript (t : string) (c : Component) : Component :=
  {| isListening := isListening c; isSpeaking := isSpeaking c;
     isProcessing := isProcessing c;
     messages := messages c; interimTranscript := t;
     autoResumeListen := autoResumeListen c;
     conversationState := conversationState c;
     shouldResumeListening := shouldResumeListening c;
     processingTimeoutRef := processingTimeoutRef c;
     voiceService := voiceService c;
     timers := timers c; nextTimer := nextTimer c; toasts := toasts c |}.

Definition setAutoResumeListen (b : bool) (c : Component) : Component :=
  {| isListening := isListening c; isSpeaking := isSpeaking c;
     isProcessing := isProcessing c;
     messages := messages c; interimTranscript := interimTranscript c;
     autoResumeListen := b;
     conversationState := conversationState c;
     shouldResumeListening := shouldResumeListening c;
     processingTimeoutRef := processingTimeoutRef c;
     voiceService := voiceService c;
     timers := timers c; nextTimer := nextTimer c; toasts := toasts c |}.

Definition setConversationState (cs : ConversationState) (c : Component) : Component :=
  {| isListening := isListening c; isSpeaking := isSpeaking c;
     isProcessing := isProcessing c;
     messages := messages c; interimTranscript := interimTranscript c;
     autoResumeListen := autoResumeListen c;
     conversationState := cs;
     shouldResumeListening := shouldResumeListening c;
     processingTimeoutRef := processingTimeoutRef c;
     voiceService := voiceService c;
     timers := timers c; nextTimer := nextTimer c; toasts := toasts c |}.

Definition setShouldResumeListening (b : bool) (c : Component) : Component :=
  {| isListening := isListening c; isSpeaking := isSpeaking c;
     isProcessing := isProcessing c;
     messages := messages c; interimTranscript := interimTranscript c;
     autoResumeListen := autoResumeListen c;
     conversationState := conversationState c;
     shouldResumeListening := b;
     processingTimeoutRef := processingTimeoutRef c;
     voiceService := voiceService c;
     timers := timers c; nextTimer := nextTimer c; toasts := toasts c |}.

Definition setProcessingTimeoutRef (t : option nat) (c : Component) : Component :=
  {| isListening := isListening c; isSpeaking := isSpeaking c;
     isProcessing := isProcessing c;
     messages := messages c; interimTranscript := interimTranscript c;
     autoResumeListen := autoResumeListen c;
     conversationState := conversationState c;
     shouldResumeListening := shouldResumeListening c;
     processingTimeoutRef := t;
     voiceService := voiceService c;
     timers := timers c; nextTimer := nextTimer c; toasts := toasts c |}.

Definition setVoiceService (vs : VoiceService.t Render) (c : Component) : Component :=
  {| isListening := isListening c; isSpeaking := isSpeaking c;
     isProcessing := isProcessing c;
     messages := messages c; interimTranscript := interimTranscript c;
     autoResumeListen := autoResumeListen c;
     conversationState := conversationState c;
     shouldResumeListening := shouldResumeListening c;
     processingTimeoutRef := processingTimeoutRef c;
     voiceService := vs;
     timers := timers c; nextTimer := nextTimer c; toasts := toasts c |}.

Definition setTimers (ts : list (nat * (Z * Timer))) (n : nat) (c : Component)
  : Component :=
  {| isListening := isListening c; isSpeaking := isSpeaking c;
     isProcessing := isProcessing c;
     messages := messages c; interimTranscript := interimTranscript c;
     autoResumeListen := autoResumeListen c;
     conversationState := conversationState c;
     shouldResumeListening := shouldResumeListening c;
     processingTimeoutRef := processingTimeoutRef c;
     voiceService := voiceService c;
     timers := ts; nextTimer := n; toasts := toasts c |}.

Definition toast (msg : string) (c : Component) : Component :=
  {| isListening := isListening c; isSpeaking := isSpeaking c;
     isProcessing := isProcessing c;
     messages := messages c; interimTranscript := interimTranscript c;
     autoResumeListen := autoResumeListen c;
     conversationState := conversationState c;
     shouldResumeListening := shouldResumeListening c;
     processingTimeoutRef := processingTimeoutRef c;
     voiceService := voiceService c;
     timers := timers c; nextTimer := nextTimer c; toasts := toasts c ++ [msg] |}.

(** [setTimeout(body, ms)]: the new timer's identifier is returned. *)
Definition setTimeout (body : Timer) (ms : Z) (c : Component) : Component * nat :=
  (setTimers (timers c ++ [(nextTimer c, (ms, body))]) (S (nextTimer c)) c,
   nextTimer c).

(** [clearTimeout(id)] *)
Definition clearTimeout (id : nat) (c : Component) : Component :=
  setTimers (filter (fun t => negb (Nat.eqb (fst t) id)) (timers c)) (nextTimer c) c.

(** [if (processingTimeoutRef.current) { clearTimeout(...); ... = null }] *)
Definition clearProcessingTimeout (c : Component) : Component :=
  match processingTimeoutRef c with
  | Some id => setProcessingTimeoutRef None (clearTimeout id c)
  | None => c
  end.

Definition addMessage (type : Speaker) (text : string) (c : Component) : Component :=
  setMessages (messages c ++ [ {| m_type := type; m_text := text |} ]) c.

(** *** The symptom extractor *)

Definition symptomKeywords : list string :=
  [ "fever"; "cough"; "cold"; "headache"; "migraine"; "pain"; "ache"; "aching";
    "nausea"; "vomiting"; "dizzy"; "dizziness"; "fatigue"; "tired"; "weakness";
    "sore"; "throat"; "runny nose"; "congestion"; "chills"; "sweating";
    "diarrhea"; "constipation"; "rash"; "itching"; "swelling"; "bleeding";
    "breathing"; "chest pain"; "stomach"; "abdominal"; "back pain"; "neck pain" ].

(** [symptom.charAt(0).toUpperCase() + symptom.slice(1)] *)
Definition formatSymptom (symptom : string) : string :=
  toUpperCase (charAt0 symptom) ++ slice1 symptom.

Definition hasNegation (lowerText : string) : bool :=
  includes lowerText "don't" || includes lowerText "no " || includes lowerText "nothing".

(** The body of [symptomKeywords.forEach], on the array [found]. *)
Definition scanKeyword (lowerText : string) (found : list string) (symptom : string)
  : list string :=
  if includes lowerText symptom then
    let formatted := formatSymptom symptom in
    if negb (arrayIncludes found formatted) then found ++ [formatted] else found
  else found.

Definition extractSymptoms (text : string) : list string :=
  let lowerText := toLowerCase text in
  if hasNegation lowerText then []
  else fold_left (scanKeyword lowerText) symptomKeywords [].

(** *** The conversation engine *)

Record Response := {
  message : string;
  nextStage : option Stage;
}.

(** The template literal that [performAnalysis] returns from its [try]
    block, with its three interpolations. *)
Definition analysisMessage (priorityUpper recommendation specialty : string) : string :=
  "Based on your symptoms, here's my analysis:" ++ nl
  ++ nl
  ++ "Priority: " ++ priorityUpper ++ nl
  ++ "Recommendation: " ++ recommendation ++ nl
  ++ "Specialty: " ++ specialty ++ nl
  ++ nl
  ++ "Would you like me to create a consultation request?".

(** The message of its [catch] block. *)
Definition recordedMessage (symptoms : list string) : string :=
  "I've recorded your symptoms: " ++ join ", " symptoms
  ++ ". Would you like me to create a consultation request for a doctor to review?".

Definition performAnalysis (o : AIService.Oracle) (cs : ConversationState) : string :=
  let description := join " " (fullTranscript cs) in
  recover
    (bind (AIService.getAIService o) (fun aiService =>
     bind (AIService.analyzeSymptoms aiService (symptoms cs) description) (fun analysis =>
     bind (callToUpperCase (AIService.priority analysis)) (fun priorityUpper =>
     Ok (analysisMessage
           priorityUpper
           (show (AIService.recommendation analysis))
           (show (or (AIService.specialty analysis) (Str "General Practitioner"))))))))
    (recordedMessage (symptoms cs)).

Definition questions : list string :=
  [ "When did these symptoms start?";
    "How severe would you say they are?";
    "Have you noticed any patterns or triggers?" ].

Definition lastQuestion : string := "Have you noticed any patterns or triggers?".

Definition wantsAnalysis (lowerMsg : string) : bool :=
  includes lowerMsg "no" || includes lowerMsg "nothing" ||
  includes lowerMsg "analyze" || includes lowerMsg "yes" ||
  includes lowerMsg "that's all" || includes lowerMsg "nope".

Definition wantsConsultation (lowerMsg : string) : bool :=
  includes lowerMsg "yes" || includes lowerMsg "create" ||
  includes lowerMsg "sure" || includes lowerMsg "please".

(** [getAIResponseForState(userMessage)], reading [conversationState.current].
    The last [return] of the source is behind the four stages and is not
    reached. *)
Definition getAIResponseForState (o : AIService.Oracle) (cs : ConversationState)
    (userMessage : string) : Result Response :=
  let lowerMsg := toLowerCase userMessage in
  match stage cs with
  | greeting =>
      match symptoms cs with
      | first :: _ =>
          Ok {| message := "I understand you're experiencing " ++ toLowerCase first
                           ++ ". Tell me more about it - when did it start?";
                nextStage := Some collecting |}
      | [] =>
          Ok {| message := "Please describe your symptoms. What's bothering you?";
                nextStage := Some collecting |}
      end
  | collecting =>
      let hasSymptoms := negb (Nat.eqb (List.length (symptoms cs)) 0) in
      if negb hasSymptoms && (3 <=? turnCount cs)%Z then
        Ok {| message := "I'm having trouble identifying specific symptoms. Could you describe what physical sensations or problems you're experiencing?";
              nextStage := Some collecting |}
      else if hasSymptoms && (3 <=? turnCount cs)%Z then
        Ok {| message := "Okay, I've noted: " ++ join ", " (symptoms cs)
                         ++ ". Anything else, or should I analyze these symptoms?";
              nextStage := Some analyzing |}
      else
        Ok {| message :=
                match arrayAt questions (Z.min (turnCount cs - 1) 2) with
                | Some q => if truthy q then q else lastQuestion
                | None => lastQuestion
                end;
              nextStage := Some collecting |}
  | analyzing =>
      if wantsAnalysis lowerMsg then
        if Nat.eqb (List.length (symptoms cs)) 0 then
          Ok {| message := "I don't have any symptoms recorded. Could you describe what you're feeling?";
                nextStage := Some collecting |}
        else
          let analysis := performAnalysis o cs in
          Ok {| message := analysis; nextStage := Some complete |}
      else
        Ok {| message := "Noted. Any other symptoms?"; nextStage := Some analyzing |}
  | complete =>
      if wantsConsultation lowerMsg then
        Ok {| message := "Perfect! I'll create your consultation request now.";
              nextStage := Some complete |}
      else
        Ok {| message := "No problem. Let me know if you need anything else.";
              nextStage := Some complete |}
  end.

(** *** Playback *)

(** [speakText(text)], up to the return of [voiceService.speak].  The voice
    picked by [getPreferredVoice] and the rate, pitch and volume of the
    utterance have no bearing on the state. *)
Definition speakText (r : Render) (text : string) (c : Component) : Component :=
  let c := setIsSpeaking true c in
  setVoiceService (VoiceService.speak (voiceService c) text r) c.

(** The [onStart] option of [speakText]. *)
Definition speakOnStart (r : Render) (c : Component) : Component :=
  setIsSpeaking true c.

(** The [onEnd] option of [speakText]. *)
Definition speakOnEnd (r : Render) (c : Component) : Component :=
  let c := setIsSpeaking false c in
  if shouldResumeListening c && r_autoResumeListen r
     && negb (Stage_eqb (stage (conversationState c)) complete)
  then fst (setTimeout (GraceTimer r) 800 c)
  else c.

(** The [onError] option of [speakText]. *)
Definition speakOnError (r : Render) (c : Component) : Component :=
  let c := setIsSpeaking false c in
  if shouldResumeListening c && r_autoResumeListen r
  then fst (setTimeout (GraceTimer r) 800 c)
  else c.

(** *** Processing one user utterance *)

(** The update of [conversationState.current] at the head of the [try]
    block of [handleUserMessage]. *)
Definition recordUtterance (text : string) (cs : ConversationState) : ConversationState :=
  let newSymptoms := extractSymptoms text in
  {| stage := stage cs;
     turnCount := turnCount cs + 1;
     symptoms := if negb (Nat.eqb (List.length newSymptoms) 0)
                 then uniq (symptoms cs ++ newSymptoms)
                 else symptoms cs;
     fullTranscript := fullTranscript cs ++ [text] |}.

Definition setStage (s : Stage) (cs : ConversationState) : ConversationState :=
  {| stage := s; turnCount := turnCount cs; symptoms := symptoms cs;
     fullTranscript := fullTranscript cs |}.

Definition errorMessage : string :=
  "I apologize, but I encountered an error. Please try again.".

(** [handleUserMessage(text)] up to its [await].  The call of
    [getAIResponseForState] reads the conversation state and issues the
    oracle request before it suspends, so the reply it will resolve to is
    fixed here; [None] is the early return on a blank text. *)
Definition handleUserMessageBegin (o : AIService.Oracle) (r : Render) (text : string)
    (c : Component) : Component * option (Result Response) :=
  if negb (truthy (trim text)) then (c, None)
  else
    let c := setShouldResumeListening false c in
    let c := setIsListening false c in
    let c := setVoiceService (VoiceService.stopListening (voiceService c)) c in
    let c := clearProcessingTimeout c in
    let c := addMessage user text c in
    let c := setIsProcessing true c in
    let c := setConversationState (recordUtterance text (conversationState c)) c in
    (c, Some (getAIResponseForState o (conversationState c) text)).

(** [handleUserMessage] from the point where the [await] resumes, with the
    [catch] and [finally] blocks. *)
Definition handleUserMessageResume (r : Render) (reply : Result Response)
    (c : Component) : Component :=
  let c :=
    match reply with
    | Ok aiResponse =>
        let c :=
          match nextStage aiResponse with
          | Some s => setConversationState (setStage s (conversationState c)) c
          | None => c
          end in
        let c := addMessage ai (message aiResponse) c in
        let c := setShouldResumeListening (r_autoResumeListen r) c in
        speakText r (message aiResponse) c
    | Throw =>
        let c := addMessage ai errorMessage c in
        let c := setShouldResumeListening (r_autoResumeListen r) c in
        speakText r errorMessage c
    end in
  setIsProcessing false c.

(** [handleUserMessage(text)], run to its end with no other handler in
    between. *)
Definition handleUserMessage (o : AIService.Oracle) (r : Render) (text : string)
    (c : Component) : Component :=
  match handleUserMessageBegin o r text c with
  | (c, Some reply) => handleUserMessageResume r reply c
  | (c, None) => c
  end.

Definition greetingText : string :=
  "Hello! I'm your AI health assistant. What brings you here today?".

(** The effect run at mount: the greeting is shown and spoken. *)
Definition mountEffect (r : Render) (c : Component) : Component :=
  speakText r greetingText (addMessage ai greetingText c).

(** *** Capture *)

(** The error callback that [handleStartListening] gives to
    [startListening]. *)
Definition captureOnError (r : Render) (error : string) (c : Component) : Component :=
  let c := setIsListening false c in
  let c := clearProcessingTimeout c in
  let c :=
    if negb (error =? "no-speech") && negb (error =? "aborted")
    then toast ("Speech recognition error: " ++ error) c
    else c in
  if ((error =? "no-speech") || (error =? "aborted"))
     && shouldResumeListening c && r_autoResumeListen r
  then fst (setTimeout (CaptureRetryTimer r) 500 c)
  else c.

(** The result callback that [handleStartListening] gives to
    [startListening]. *)
Definition captureOnResult (r : Render) (transcript : string) (isFinal : bool)
    (c : Component) : Component :=
  if isFinal then
    let c := setInterimTranscript EmptyString c in
    let c :=
      match processingTimeoutRef c with
      | Some id => clearTimeout id c
      | None => c
      end in
    let (c, id) := setTimeout (DebounceTimer r transcript) 2000 c in
    setProcessingTimeoutRef (Some id) c
  else setInterimTranscript transcript c.

(** [handleStartListening()]; [startOk] as in [VoiceService.startListening]. *)
Definition handleStartListening (r : Render) (startOk : bool) (c : Component)
  : Component :=
  if negb (VoiceService.isSpeechRecognitionSupported (voiceService c)) then
    toast "Speech recognition is not supported in your browser" c
  else
    let c :=
      if r_isSpeaking r then
        let c := setVoiceService (VoiceService.stopSpeaking (voiceService c)) c in
        setIsSpeaking false c
      else c in
    let c := setInterimTranscript EmptyString c in
    let (vs, failure) := VoiceService.startListening (voiceService c) r startOk in
    let c := setVoiceService vs c in
    let c :=
      match failure with
      | Some error => captureOnError r error c
      | None => c
      end in
    let c := setIsListening true c in
    setShouldResumeListening true c.

Definition handleStopListening (c : Component) : Component :=
  let c := setVoiceService (VoiceService.stopListening (voiceService c)) c in
  let c := setIsListening false c in
  let c := setInterimTranscript EmptyString c in
  let c := setShouldResumeListening false c in
  clearProcessingTimeout c.

Definition handleStopSpeaking (r : Render) (c : Component) : Component :=
  let c := setVoiceService (VoiceService.stopSpeaking (voiceService c)) c in
  let c := setIsSpeaking false c in
  if r_autoResumeListen r && negb (Stage_eqb (stage (conversationState c)) complete)
  then fst (setTimeout (SkipTimer r) 500 c)
  else c.

(** *** Timers and device events *)

(** A call of [handleUserMessage] that is suspended at its [await], with
    the reply it will resume with. *)
Definition Suspended : Type := Render * Result Response.

(** The body of a timer, run when it fires, up to the first [await]. *)
Definition runTimer (o : AIService.Oracle) (startOk : bool) (t : Timer) (c : Component)
  : Component * option Suspended :=
  match t with
  | DebounceTimer r accumulatedTranscript =>
      if truthy accumulatedTranscript && VoiceService.getIsListening (voiceService c)
      then
        let (c, reply) := handleUserMessageBegin o r accumulatedTranscript c in
        (c, option_map (fun reply => (r, reply)) reply)
      else (c, None)
  | CaptureRetryTimer r =>
      if shouldResumeListening c && negb (r_isSpeaking r) && negb (r_isProcessing r)
      then (handleStartListening r startOk c, None)
      else (c, None)
  | GraceTimer r =>
      if shouldResumeListening c && negb (r_isProcessing r)
      then (handleStartListening r startOk c, None)
      else (c, None)
  | SkipTimer r => (handleStartListening r startOk c, None)
  end.

(** The pending timer [id] fires: it leaves the queue and its body runs. *)
Definition fireTimer (o : AIService.Oracle) (startOk : bool) (id : nat) (c : Component)
  : Component * option Suspended :=
  match find (fun t => Nat.eqb (fst t) id) (timers c) with
  | Some (_, (_, body)) => runTimer o startOk body (clearTimeout id c)
  | None => (c, None)
  end.

(** The [await] of a suspended [handleUserMessage] resumes. *)
Definition resume (s : Suspended) (c : Component) : Component :=
  handleUserMessageResume (fst s) (snd s) c.

(** [utterance.onend] of the utterance being spoken. *)
Definition utteranceEnd (c : Component) : Component :=
  match VoiceService.currentUtterance (voiceService c) with
  | Some (_, r) =>
      speakOnEnd r (setVoiceService (VoiceService.utteranceDone (voiceService c)) c)
  | None => c
  end.

(** [utterance.onerror] of the utterance being spoken. *)
Definition utteranceError (c : Component) : Component :=
  match VoiceService.currentUtterance (voiceService c) with
  | Some (_, r) =>
      speakOnError r (setVoiceService (VoiceService.utteranceDone (voiceService c)) c)
  | None => c
  end.

(** [recognition.onerror] with the error kind the browser reports. *)
Definition recognitionError (error : string) (c : Component) : Component :=
  match VoiceService.handlers (voiceService c) with
  | Some r =>
      captureOnError r error
        (setVoiceService (VoiceService.recognitionStopped (voiceService c)) c)
  | None => c
  end.

(** [recognition.onresult] with the last result of the event. *)
Definition recognitionResult (transcript : string) (isFinal : bool) (c : Component)
  : Component :=
  match VoiceService.handlers (voiceService c) with
  | Some r => captureOnResult r transcript isFinal c
  | None => c
  end.

(** *** A scripted conversation: the utterances are processed in order. *)
Definition converse (o : AIService.Oracle) (r : Render) (utterances : list string)
    (c : Component) : Component :=
  fold_left (fun c text => handleUserMessage o r text c) utterances c.

(** The system utterance that is being spoken, if any. *)
Definition spoken (c : Component) : option string :=
  option_map fst (VoiceService.currentUtterance (voiceService c)).

End AIVoiceConsultation.

(** ** The voice selection of the speech channel: [getPreferredVoice] *)

Module Voices.
Import Js.

(** What the policy reads of a [SpeechSynthesisVoice]. *)
Record Voice := {
  lang : string;
  name : string;
}.

Definition isEnglish (voice : Voice) : bool := startsWith (lang voice) "en".

Definition soundsFemale (voice : Voice) : bool :=
  includes (toLowerCase (name voice)) "female" ||
  includes (toLowerCase (name voice)) "samantha" ||
  includes (toLowerCase (name voice)) "victoria" ||
  includes (toLowerCase (name voice)) "zira".

(** [getPreferredVoice()], on the array that [getAvailableVoices()] returns. *)
Definition getPreferredVoice (voices : list Voice) : option Voice :=
  let englishVoices := filter isEnglish voices in
  match find soundsFemale englishVoices with
  | Some femaleVoice => Some femaleVoice
  | None =>
      match englishVoices with
      | first :: _ => Some first
      | [] => hd_error voices
      end
  end.

End Voices.

(** ** The buttons of the consultation component *)

Module Buttons.
Import Js AIVoiceConsultation.

(** [toggleAutoListen()], pressed in a render [r]. *)
Definition toggleAutoListen (r : Render) (c : Component) : Component :=
  let newValue := negb (r_autoResumeListen r) in
  let c := setAutoResumeListen newValue c in
  let c := toast (if newValue then "Auto-listen enabled" else "Auto-listen disabled") c in
  if negb newValue then
    let c := setShouldResumeListening false c in
    handleStopListening c
  else c.

(** The condition under which the Create Consultation button is rendered. *)
Definition createConsultationShown (c : Component) : bool :=
  Stage_eqb (stage (conversationState c)) complete
  && negb (Nat.eqb (List.length (symptoms (conversationState c))) 0).

(** [handleCreateConsultation()].  [hasCallback] tells whether the optional
    [onSubmitSymptoms] prop was given; the second component is what it is
    called with.  The closing [onClose()] belongs to the parent. *)
Definition handleCreateConsultation (hasCallback : bool) (c : Component)
  : Component * option (list string * string) :=
  let c := setShouldResumeListening false c in
  let c := handleStopListening c in
  let description := join (nl ++ nl) (fullTranscript (conversationState c)) in
  let submitted :=
    if hasCallback then Some (symptoms (conversationState c), description) else None in
  (toast "Consultation request created!" c, submitted).

End Buttons.

(** ** The symptom form of the patient dashboard: [PatientDashboard] *)

Module PatientDashboard.
Import Js.

(** The React state the form reads and writes. *)
Record Form := {
  selectedSymptoms : list string;
  description : string;
  aiAnalysis : option AIService.SymptomAnalysis;
  analyzing : bool;
  toasts : list string;
}.

(** The updater that [toggleSymptom(symptom)] passes to [setSelectedSymptoms]. *)
Definition toggleSymptom (symptom : string) (prev : list string) : list string :=
  if arrayIncludes prev symptom
  then filter (fun s => negb (String.eqb s symptom)) prev
  else prev ++ [symptom].

Definition toast (msg : string) (f : Form) : Form :=
  {| selectedSymptoms := selectedSymptoms f; description := description f;
     aiAnalysis := aiAnalysis f; analyzing := analyzing f;
     toasts := toasts f ++ [msg] |}.

Definition setAnalyzing (b : bool) (f : Form) : Form :=
  {| selectedSymptoms := selectedSymptoms f; description := description f;
     aiAnalysis := aiAnalysis f; analyzing := b; toasts := toasts f |}.

Definition setAiAnalysis (a : AIService.SymptomAnalysis) (f : Form) : Form :=
  {| selectedSymptoms := selectedSymptoms f; description := description f;
     aiAnalysis := Some a; analyzing := analyzing f; toasts := toasts f |}.

(** [analyzeWithAI()], run to its end. *)
Definition analyzeWithAI (o : AIService.Oracle) (f : Form) : Form :=
  if Nat.eqb (List.length (selectedSymptoms f)) 0 || negb (truthy (trim (description f)))
  then toast "Please select symptoms and provide a description" f
  else
    let f := setAnalyzing true f in
    let f :=
      match bind (AIService.getAIService o) (fun aiService =>
            AIService.analyzeSymptoms aiService (selectedSymptoms f) (description f))
      with
      | Ok analysis => setAiAnalysis analysis f
      | Throw => toast "AI analysis failed. Please try again." f
      end in
    setAnalyzing false f.

End PatientDashboard.

(** ** An automated session

    The component between two presses of a button: only the browser's speech
    engines, the timers and the oracle drive it. *)

Module Session.
Import Js AIVoiceConsultation.

Record State := {
  component : Component;
  (* the calls of handleUserMessage that wait at their await *)
  suspended : list Suspended;
}.

Inductive Event :=
| RecognitionResult (transcript : string) (isFinal : bool)   (* recognition.onresult *)
| RecognitionError (error : string)                          (* recognition.onerror *)
| RecognitionEnd                                             (* recognition.onend *)
| UtteranceStart                                             (* utterance.onstart *)
| UtteranceEnd                                               (* utterance.onend *)
| UtteranceError                                             (* utterance.onerror *)
| TimerFires (id : nat) (startOk : bool)
| AwaitResumes (n : nat).

(** Modelled from the spec: the speech engines are the browser's and not
    code of the repository; section 3 gives their lifecycles.  A capture
    session is idle, then listening, then reports results or an error, then
    is idle: an error is reported only while the service is listening.  A
    playback session is idle, then speaking, then ended or failed, then
    idle: start, end and error are reported only while an utterance is being
    spoken.  Results and the end of recognition are accepted at any time.
    A timer fires while it is pending, a suspended call resumes while it is
    suspended. *)
Definition enabled (e : Event) (s : State) : bool :=
  let vs := voiceService (component s) in
  match e with
  | RecognitionResult _ _ => true
  | RecognitionError _ => VoiceService.isListening vs
  | RecognitionEnd => true
  | UtteranceStart | UtteranceEnd | UtteranceError => VoiceService.speaking vs
  | TimerFires id _ => existsb (fun t => Nat.eqb (fst t) id) (timers (component s))
  | AwaitResumes n => Nat.ltb n (List.length (suspended s))
  end.

(** [arr.splice(n, 1)] *)
Fixpoint removeAt {A : Type} (n : nat) (l : list A) : list A :=
  match l, n with
  | [], _ => []
  | _ :: r, O => r
  | x :: r, S n => x :: removeAt n r
  end.

(** The handler that the event runs. *)
Definition step (o : AIService.Oracle) (e : Event) (s : State) : State :=
  let c := component s in
  match e with
  | RecognitionResult transcript isFinal =>
      {| component := recognitionResult transcript isFinal c;
         suspended := suspended s |}
  | RecognitionError error =>
      {| component := recognitionError error c; suspended := suspended s |}
  | RecognitionEnd =>
      {| component :=
           match VoiceService.handlers (voiceService c) with
           | Some _ => setVoiceService (VoiceService.recognitionStopped (voiceService c)) c
           | None => c
           end;
         suspended := suspended s |}
  | UtteranceStart =>
      {| component :=
           match VoiceService.currentUtterance (voiceService c) with
           | Some (_, r) => speakOnStart r c
           | None => c
           end;
         suspended := suspended s |}
  | UtteranceEnd => {| component := utteranceEnd c; suspended := suspended s |}
  | UtteranceError => {| component := utteranceError c; suspended := suspended s |}
  | TimerFires id startOk =>
      let (c, call) := fireTimer o startOk id c in
      {| component := c;
         suspended := suspended s ++ match call with Some k => [k] | None => [] end |}
  | AwaitResumes n =>
      match nth_error (suspended s) n with
      | Some k => {| component := resume k c; suspended := removeAt n (suspended s) |}
      | None => s
      end
  end.

(** How the session is entered: the greeting has been spoken to its end and
    the Speak button is pressed ([startOk] as in [handleStartListening]), or
    the greeting is cut short with the Skip button. *)
Inductive Entry :=
| SpeakButton (startOk : bool)
| SkipButton.

(** The state in which the loop takes over: the component is mounted, the
    greeting effect has run, and the button is pressed in a render [r]. *)
Definition start (r : Render) (recognitionSupported : bool) (entry : Entry) : State :=
  let vs :=
    {| VoiceService.recognition := recognitionSupported;
       VoiceService.handlers := None;
       VoiceService.isListening := false;
       VoiceService.speaking := false;
       VoiceService.currentUtterance := None |} in
  let mounted :=
    mountEffect {| r_isSpeaking := false; r_isProcessing := false;
                   r_autoResumeListen := true |} (mount vs) in
  {| component :=
       match entry with
       | SpeakButton startOk => handleStartListening r startOk (utteranceEnd mounted)
       | SkipButton => handleStopSpeaking r mounted
       end;
     suspended := [] |}.

Inductive Reachable (o : AIService.Oracle) (init : State) : State -> Prop :=
| reach_start : Reachable o init init
| reach_step (s : State) (e : Event) :
    Reachable o init s -> enabled e s = true -> Reachable o init (step o e s).

(** The events of a script, each checked to be enabled when its turn comes. *)
Fixpoint run (o : AIService.Oracle) (script : list Event) (s : State) : option State :=
  match script with
  | [] => Some s
  | e :: rest => if enabled e s then run o rest (step o e s) else None
  end.

(** One turn of the loop: the recognizer reports a final transcript, the
    debounce timer [debounce] fires, the reply arrives and is spoken. *)
Definition userSays (text : string) (debounce : nat) : list Event :=
  [ RecognitionResult text true; TimerFires debounce true; AwaitResumes 0 ].

(** The utterance is spoken to its end and the grace timer [grace] fires. *)
Definition systemHasSpoken (grace : nat) : list Event :=
  [ UtteranceEnd; TimerFires grace true ].

(** The two phases that must not overlap, as the voice service has them. *)
Definition capturing (s : State) : bool :=
  VoiceService.isListening (voiceService (component s)).

Definition speaking (s : State) : bool :=
  VoiceService.speaking (voiceService (component s)).

(** A timer whose body starts capture. *)
Definition startsCapture (t : nat * (Z * Timer)) : bool :=
  match snd (snd t) with
  | DebounceTimer _ _ => false
  | CaptureRetryTimer _ | GraceTimer _ | SkipTimer _ => true
  end.

(** The handler that takes [c] to [c'] leaves the voice service and the two
    phase flags of the component alone. *)
Definition Keeps (c c' : Component) : Prop :=
  voiceService c' = voiceService c /\
  isListening c' = isListening c /\
  isSpeaking c' = isSpeaking c.

Definition restarts (c : Component) : nat :=
  List.length (filter startsCapture (timers c)).

(** The phases in progress: capture, playback, a pending restart of capture,
    an utterance being processed. *)
Definition phases (s : State) : nat :=
  (if capturing s then 1 else 0)
  + (if speaking s then 1 else 0)
  + restarts (component s)
  + List.length (suspended s).

(** The invariant of the loop: one phase at a time, and the flags the
    component shows agree with it. *)
Definition Alternates (s : State) : Prop :=
  phases s <= 1 /\
  (isSpeaking (component s) = true -> speaking s = true) /\
  (isListening (component s) = true -> speaking s = false) /\
  (suspended s <> [] -> isListening (component s) = false) /\
  (capturing s = true -> VoiceService.recognition (voiceService (component s)) = true).

End Session.

(** ** Notions the specification uses *)

Module Spec.
Import Js AIService AIVoiceConsultation.

(** Title case in the words of the specification: the first letter of every
    word is upper-cased. *)
Fixpoint titleCaseFrom (wordStart : bool) (s : string) : string :=
  match s with
  | EmptyString => EmptyString
  | String c r =>
      String (if wordStart then upperChar c else c) (titleCaseFrom (isWhiteSpace c) r)
  end.

Definition titleCase (s : string) : string := titleCaseFrom true s.

(** A negation marker occurs in the lower-cased text. *)
Definition Negated (text : string) : Prop :=
  Substring "don't" (toLowerCase text) \/
  Substring "no " (toLowerCase text) \/
  Substring "nothing" (toLowerCase text).

(** A keyword of the fixed vocabulary occurs in the lower-cased text. *)
Definition MentionsKeyword (text : string) : Prop :=
  exists keyword, In keyword symptomKeywords /\ Substring keyword (toLowerCase text).

(** Arrays compared as sets. *)
Definition SameSet (a b : list string) : Prop := forall x, In x a <-> In x b.

Definition StrictSuperset (larger smaller : list string) : Prop :=
  incl smaller larger /\ exists x, In x larger /\ ~ In x smaller.

(** The order greeting < collecting < analyzing < complete. *)
Definition stageRank (s : Stage) : nat :=
  match s with
  | greeting => 0
  | collecting => 1
  | analyzing => 2
  | complete => 3
  end.

(** A severity marker occurs in a lower-cased symptom or in the lower-cased
    description. *)
Definition MarkerOccurs (markers symptoms : list string) (description : string) : Prop :=
  exists m, In m markers /\
    ((exists s, In s symptoms /\ Substring m (toLowerCase s)) \/
     Substring m (toLowerCase description)).

(** The oracle call throws, or its reply does not parse. *)
Definition OracleFails (o : Oracle) (symptoms : list string) (description : string)
  : Prop :=
  match chatCompletion o (buildPrompt symptoms description) with
  | Throw => True
  | Ok content =>
      match parseJSON o (contentOrEmpty content) with
      | SyntaxError | ParsedNull => True
      | Parsed _ _ _ _ => False
      end
  end.

(** What [handleUserMessage] does to [conversationState.current] on an
    utterance that is not blank, with the system utterance it speaks
    (lemma [handleUserMessage_engine]). *)
Definition engineStep (o : Oracle) (text : string) (cs : ConversationState)
  : ConversationState * string :=
  let cs := recordUtterance text cs in
  match getAIResponseForState o cs text with
  | Ok aiResponse =>
      (match nextStage aiResponse with
       | Some s => setStage s cs
       | None => cs
       end,
       message aiResponse)
  | Throw => (cs, errorMessage)
  end.

Definition nextConversationState (o : Oracle) (text : string) (cs : ConversationState)
  : ConversationState :=
  if isBlank text then cs else fst (engineStep o text cs).

(** In the stages analyzing and complete a symptom is on record. *)
Definition SymptomsOnRecord (cs : ConversationState) : Prop :=
  match stage cs with
  | analyzing | complete => symptoms cs <> []
  | _ => True
  end.

(** An oracle whose every call throws. *)
Definition unreachable : Oracle :=
  {| apiKey := true;
     chatCompletion := fun _ => Throw;
     parseJSON := fun _ => SyntaxError |}.

(** A voice service with both capabilities and nothing in progress. *)
Definition idleService : VoiceService.t Render :=
  {| VoiceService.recognition := true;
     VoiceService.handlers := None;
     VoiceService.isListening := false;
     VoiceService.speaking := false;
     VoiceService.currentUtterance := None |}.

(** The React state of the first render. *)
Definition firstRender : Render :=
  {| r_isSpeaking := false; r_isProcessing := false; r_autoResumeListen := true |}.

(** The scripted session of the specification as the browser drives it:
    timers are numbered in the order they are set. *)
Definition headacheSession : list Session.Event :=
  (Session.userSays "I have a really bad headache" 0 ++ Session.systemHasSpoken 1
   ++ Session.userSays "started this morning" 2 ++ Session.systemHasSpoken 3
   ++ Session.userSays "it's about a 7 out of 10" 4 ++ Session.systemHasSpoken 5
   ++ Session.userSays "no that's all" 6)%list.

(** The scripted session of the specification. *)
Definition headacheScenario : list string :=
  [ "I have a really bad headache";
    "started this morning";
    "it's about a 7 out of 10";
    "no that's all" ].

End Spec.

(** ** Further notions *)

Module Notions.
Import Js AIService AIVoiceConsultation.

(** The four priorities in order of urgency; anything else ranks lowest. *)
Definition urgency (priority : Value) : nat :=
  match priority with
  | Str p =>
      if String.eqb p "urgent" then 3
      else if String.eqb p "high" then 2
      else if String.eqb p "medium" then 1
      else 0
  | _ => 0
  end.

(** The utterances that [handleUserMessage] accepts: those that are not blank. *)
Definition accepted (utterances : list string) : list string :=
  filter (fun text => negb (isBlank text)) utterances.

(** A label that the extractor can produce. *)
Definition KnownLabel (label : string) : Prop :=
  exists keyword, In keyword symptomKeywords /\ label = formatSymptom keyword.

(** Turns needed to be in a stage, counted from the initial state. *)
Definition TurnsFitStage (cs : ConversationState) : Prop :=
  match stage cs with
  | greeting => turnCount cs = 0%Z
  | collecting => (1 <= turnCount cs)%Z
  | analyzing => (3 <= turnCount cs)%Z
  | complete => (4 <= turnCount cs)%Z
  end.

Definition isDebounce (t : nat * (Z * Timer)) : bool :=
  match snd (snd t) with
  | DebounceTimer _ _ => true
  | _ => false
  end.

(** The bookkeeping of timers: identifiers are fresh and distinct, and the
    pending debounce timers are those that [processingTimeoutRef] holds. *)
Definition TimersOk (c : Component) : Prop :=
  (forall t, In t (timers c) -> fst t < nextTimer c) /\
  NoDup (map fst (timers c)) /\
  (forall t, In t (timers c) ->
             (isDebounce t = true <-> processingTimeoutRef c = Some (fst t))) /\
  (forall id, processingTimeoutRef c = Some id -> id < nextTimer c).

End Notions.

(** * Properties *)

(** ** Strings and arrays *)

Module JsFacts.
Import Js.

Lemma startsWith_iff (s pat : string) :
  startsWith s pat = true <-> exists after, s = pat ++ after.
Proof.
  revert s; induction pat as [|a pat IH]; intros s; simpl.
  - split; [intros _; now exists s | reflexivity].
  - destruct s as [|b s].
    + split; [discriminate | intros [after H]; discriminate].
    + rewrite andb_true_iff, Ascii.eqb_eq, IH. split.
      * intros [-> [after ->]]. now exists after.
      * intros [after H]. inversion H. split; [reflexivity | now exists after].
Qed.

Lemma includes_unfold (s pat : string) :
  includes s pat =
  startsWith s pat ||
  match s with
  | EmptyString => false
  | String _ r => includes r pat
  end.
Proof. destruct s; reflexivity. Qed.

(** [includes] decides [Substring]. *)
Lemma includes_iff (s pat : string) :
  includes s pat = true <-> Substring pat s.
Proof.
  unfold Substring. split.
  - induction s as [|c s IH]; rewrite includes_unfold, orb_true_iff.
    + intros [H|H]; [|discriminate].
      apply startsWith_iff in H as [after H]. now exists EmptyString, after.
    + intros [H|H].
      * apply startsWith_iff in H as [after H]. now exists EmptyString, after.
      * destruct (IH H) as (before & after & ->).
        now exists (String c before), after.
  - intros (before & after & ->).
    induction before as [|c before IH]; rewrite includes_unfold, orb_true_iff.
    + left. apply startsWith_iff. now exists after.
    + right. exact IH.
Qed.

Lemma includes_false_iff (s pat : string) :
  includes s pat = false <-> ~ Substring pat s.
Proof.
  rewrite <- includes_iff. destruct (includes s pat); split; congruence.
Qed.

Lemma trimStart_blank (s : string) : isBlank s = true -> trimStart s = EmptyString.
Proof.
  induction s as [|c s IH]; simpl; [reflexivity|].
  intros H. apply andb_true_iff in H as [Hc Hs]. now rewrite Hc, IH.
Qed.

Lemma trimEnd_nonblank_head (c : ascii) (s : string) :
  isWhiteSpace c = false -> trimEnd (String c s) <> EmptyString.
Proof.
  intros Hc. simpl. destruct (trimEnd s); [rewrite Hc|]; discriminate.
Qed.

Lemma trimStart_shape (s : string) :
  trimStart s = EmptyString /\ isBlank s = true \/
  exists c r, trimStart s = String c r /\ isWhiteSpace c = false /\ isBlank s = false.
Proof.
  induction s as [|c s IH]; simpl; [now left|].
  destruct (isWhiteSpace c) eqn:Hc; simpl.
  - exact IH.
  - right. now exists c, s.
Qed.

(** [!text.trim()] holds exactly of the blank strings. *)
Lemma trim_falsy_iff (s : string) : truthy (trim s) = false <-> isBlank s = true.
Proof.
  unfold trim. destruct (trimStart_shape s) as [[-> Hb]|(c & r & -> & Hc & Hb)].
  - simpl. split; auto.
  - pose proof (trimEnd_nonblank_head c r Hc) as Hne.
    destruct (trimEnd (String c r)); [contradiction|].
    simpl. rewrite Hb. split; discriminate.
Qed.

Lemma arrayIncludes_iff (arr : list string) (x : string) :
  arrayIncludes arr x = true <-> In x arr.
Proof.
  unfold arrayIncludes. rewrite existsb_exists. split.
  - intros (y & Hy & Heq). apply String.eqb_eq in Heq. now subst.
  - intros H. exists x. split; [assumption | apply String.eqb_refl].
Qed.

Lemma arrayIncludes_false_iff (arr : list string) (x : string) :
  arrayIncludes arr x = false <-> ~ In x arr.
Proof.
  rewrite <- arrayIncludes_iff. destruct (arrayIncludes arr x); split; congruence.
Qed.

Lemma In_uniq (arr : list string) (x : string) : In x (uniq arr) <-> In x arr.
Proof.
  induction arr as [|y arr IH]; simpl; [tauto|].
  rewrite filter_In, IH, negb_true_iff, String.eqb_neq.
  destruct (string_dec y x); intuition.
Qed.

Lemma NoDup_uniq (arr : list string) : NoDup (uniq arr).
Proof.
  induction arr as [|y arr IH]; simpl; constructor.
  - rewrite filter_In, negb_true_iff, String.eqb_neq. intros [_ H]. now apply H.
  - now apply NoDup_filter.
Qed.

Lemma uniq_NoDup (arr : list string) : uniq arr = arr -> NoDup arr.
Proof. intros <-. apply NoDup_uniq. Qed.

Lemma filter_all {A : Type} (f : A -> bool) (l : list A) :
  (forall x, In x l -> f x = true) -> filter f l = l.
Proof.
  induction l as [|a l IH]; simpl; intros H; [reflexivity|].
  rewrite (H a (or_introl eq_refl)), IH; auto.
Qed.

(** On an array without repetition, the round trip through [Set] is the
    identity. *)
Lemma uniq_id (arr : list string) : NoDup arr -> uniq arr = arr.
Proof.
  induction 1 as [|x arr Hx Hnd IH]; simpl; [reflexivity|].
  rewrite IH. f_equal. apply filter_all.
  intros y Hy. apply negb_true_iff, String.eqb_neq. intros ->. contradiction.
Qed.

End JsFacts.

(** ** The analysis gateway *)

Module AIServiceFacts.
Import Js AIService Spec JsFacts.

Lemma someMarker_iff (markers symptoms : list string) (description : string) :
  someMarker markers (map toLowerCase symptoms) (toLowerCase description) = true
  <-> MarkerOccurs markers symptoms description.
Proof.
  unfold someMarker, MarkerOccurs. rewrite existsb_exists.
  split; intros (m & Hm & H); exists m; (split; [exact Hm|]).
  - apply orb_true_iff in H as [H|H].
    + left. apply existsb_exists in H as (sl & Hsl & Hinc).
      apply in_map_iff in Hsl as (s0 & <- & Hs0).
      exists s0. split; [exact Hs0 | now apply includes_iff].
    + right. now apply includes_iff.
  - apply orb_true_iff. destruct H as [(s0 & Hs0 & Hsub)|Hsub].
    + left. apply existsb_exists. exists (toLowerCase s0).
      split; [now apply in_map | now apply includes_iff].
    + right. now apply includes_iff.
Qed.

Lemma someMarker_false_iff (markers symptoms : list string) (description : string) :
  someMarker markers (map toLowerCase symptoms) (toLowerCase description) = false
  <-> ~ MarkerOccurs markers symptoms description.
Proof.
  rewrite <- someMarker_iff.
  destruct (someMarker _ _ _); split; congruence.
Qed.

(** The fallback is a total function with three outcomes, chosen by the two
    marker tiers in order. *)
Lemma getFallbackAnalysis_tiers (symptoms : list string) (description : string) :
  let a := getFallbackAnalysis symptoms description in
  (MarkerOccurs critical symptoms description ->
     priority a = Str "urgent" /\ specialty a = Str "Emergency Medicine") /\
  (~ MarkerOccurs critical symptoms description ->
   MarkerOccurs highPriority symptoms description ->
     priority a = Str "high" /\ specialty a = Str "General Practitioner") /\
  (~ MarkerOccurs critical symptoms description ->
   ~ MarkerOccurs highPriority symptoms description ->
     priority a = Str "medium" /\ specialty a = Str "General Practitioner").
Proof.
  unfold getFallbackAnalysis.
  destruct (someMarker critical _ _) eqn:Hc.
  - apply someMarker_iff in Hc.
    simpl; repeat split; intros; try reflexivity; contradiction.
  - apply someMarker_false_iff in Hc.
    destruct (someMarker highPriority _ _) eqn:Hh;
      [apply someMarker_iff in Hh | apply someMarker_false_iff in Hh];
      simpl; repeat split; intros; try reflexivity; contradiction.
Qed.

Lemma analyzeSymptoms_cases (o : Oracle) (symptoms : list string) (description : string) :
  analyzeSymptoms o symptoms description =
  match chatCompletion o (buildPrompt symptoms description) with
  | Throw => Ok (getFallbackAnalysis symptoms description)
  | Ok content =>
      match parseJSON o (contentOrEmpty content) with
      | SyntaxError | ParsedNull => Ok (getFallbackAnalysis symptoms description)
      | Parsed p r s f =>
          Ok {| priority := or p (Str "medium");
                recommendation := or r (Str "Please consult with a healthcare provider.");
                specialty := or s (Str "General Practitioner");
                followUpQuestions := or f (Arr []) |}
      end
  end.
Proof.
  unfold analyzeSymptoms, callAIModel, parseResponse.
  destruct (chatCompletion o _) as [content|]; simpl; [|reflexivity].
  destruct (parseJSON o _); reflexivity.
Qed.

Lemma analyzeSymptoms_total (o : Oracle) (symptoms : list string) (description : string) :
  exists a, analyzeSymptoms o symptoms description = Ok a.
Proof.
  rewrite analyzeSymptoms_cases.
  destruct (chatCompletion o _) as [content|]; [|eauto].
  destruct (parseJSON o _); eauto.
Qed.

Lemma analyzeSymptoms_fallback (o : Oracle) (symptoms : list string) (description : string) :
  OracleFails o symptoms description ->
  analyzeSymptoms o symptoms description = Ok (getFallbackAnalysis symptoms description).
Proof.
  unfold OracleFails. rewrite analyzeSymptoms_cases.
  destruct (chatCompletion o _) as [content|]; [|reflexivity].
  destruct (parseJSON o _); (reflexivity || contradiction).
Qed.

(** C5.  [analyzeSymptoms] never throws; when the oracle call throws or the
    reply does not parse, its result is the local fallback's, and the
    fallback answers every input: urgent with Emergency Medicine when a
    critical marker occurs in a lower-cased symptom or in the lower-cased
    description, otherwise high with General Practitioner when an elevated
    marker so occurs, otherwise medium.  With the oracle failing, the
    symptom list [Fever] is classified high, General Practitioner, whatever
    description free of critical markers comes with it. *)
Theorem analyzeSymptoms_never_throws
    (o : Oracle) (symptoms : list string) (description : string) :
  (exists a, analyzeSymptoms o symptoms description = Ok a) /\
  (OracleFails o symptoms description ->
     analyzeSymptoms o symptoms description
     = Ok (getFallbackAnalysis symptoms description)) /\
  (let a := getFallbackAnalysis symptoms description in
   (MarkerOccurs critical symptoms description ->
      priority a = Str "urgent" /\ specialty a = Str "Emergency Medicine") /\
   (~ MarkerOccurs critical symptoms description ->
    MarkerOccurs highPriority symptoms description ->
      priority a = Str "high" /\ specialty a = Str "General Practitioner") /\
   (~ MarkerOccurs critical symptoms description ->
    ~ MarkerOccurs highPriority symptoms description ->
      priority a = Str "medium")) /\
  (OracleFails o ["Fever"] description ->
   ~ MarkerOccurs critical ["Fever"] description ->
     exists a, analyzeSymptoms o ["Fever"] description = Ok a /\
               priority a = Str "high" /\ specialty a = Str "General Practitioner").
Proof.
  split; [apply analyzeSymptoms_total|].
  split; [apply analyzeSymptoms_fallback|].
  split.
  - destruct (getFallbackAnalysis_tiers symptoms description) as (Hu & Hh & Hm).
    cbv zeta. repeat split; try (apply Hu; assumption); try (apply Hh; assumption).
    intros Hc Hn. now apply Hm.
  - intros Hfail Hcrit.
    exists (getFallbackAnalysis ["Fever"] description).
    split; [now apply analyzeSymptoms_fallback|].
    apply (getFallbackAnalysis_tiers ["Fever"] description); [exact Hcrit|].
    exists "fever". split; [now left|].
    left. exists "Fever". split; [now left|].
    now exists EmptyString, EmptyString.
Qed.

Lemma no_marker_by_computation (markers symptoms : list string) (description : string) :
  someMarker markers (map toLowerCase symptoms) (toLowerCase description) = false ->
  ~ MarkerOccurs markers symptoms description.
Proof. apply someMarker_false_iff. Qed.

(** The scenario of the specification: the oracle throws on
    [analyze(["Fever"], "...")]. *)
Lemma analyzeSymptoms_never_throws_witness :
  exists a, analyzeSymptoms unreachable ["Fever"] "..." = Ok a /\
            priority a = Str "high" /\ specialty a = Str "General Practitioner".
Proof.
  apply (proj2 (proj2 (proj2 (analyzeSymptoms_never_throws unreachable ["Fever"] "...")))).
  - exact I.
  - apply no_marker_by_computation. reflexivity.
Defined.

End AIServiceFacts.

(** ** The symptom extractor *)

Module ExtractorFacts.
Import Js AIVoiceConsultation Spec JsFacts.

Lemma hasNegation_iff (text : string) :
  hasNegation (toLowerCase text) = true <-> Negated text.
Proof.
  unfold hasNegation, Negated.
  rewrite !orb_true_iff, !includes_iff. tauto.
Qed.

Lemma hasNegation_false_iff (text : string) :
  hasNegation (toLowerCase text) = false <-> ~ Negated text.
Proof.
  rewrite <- hasNegation_iff.
  destruct (hasNegation (toLowerCase text)); split; congruence.
Qed.

(** The [forEach] loop appends, in vocabulary order, the formatted keywords
    that occur; the test against [found] never fires when the formatted
    keywords are pairwise distinct and new. *)
Lemma scan_all (lowerText : string) (keywords found : list string) :
  NoDup (map formatSymptom keywords) ->
  (forall k, In k keywords -> ~ In (formatSymptom k) found) ->
  fold_left (scanKeyword lowerText) keywords found
  = (found ++ map formatSymptom (filter (includes lowerText) keywords))%list.
Proof.
  revert found.
  induction keywords as [|k keywords IH]; intros found Hnd Hnew; simpl.
  - now rewrite app_nil_r.
  - inversion Hnd as [|? ? Hk Hnd']; subst.
    unfold scanKeyword at 2.
    destruct (includes lowerText k) eqn:Hinc.
    + assert (arrayIncludes found (formatSymptom k) = false) as ->.
      { apply arrayIncludes_false_iff, Hnew. now left. }
      simpl. rewrite IH; [now rewrite <- app_assoc | exact Hnd' |].
      intros k' Hk' Hin. apply in_app_or in Hin as [Hin|[Heq|[]]].
      * apply (Hnew k'); [now right | exact Hin].
      * apply Hk. rewrite Heq. now apply in_map.
    + apply IH; [exact Hnd'|]. intros k' Hk'. apply Hnew. now right.
Qed.

Lemma formatted_keywords_distinct : NoDup (map formatSymptom symptomKeywords).
Proof. apply uniq_NoDup. reflexivity. Qed.

(** [extractSymptoms] in closed form. *)
Lemma extractSymptoms_eq (text : string) :
  extractSymptoms text =
  if hasNegation (toLowerCase text) then []
  else map formatSymptom (filter (includes (toLowerCase text)) symptomKeywords).
Proof.
  unfold extractSymptoms. destruct (hasNegation _); [reflexivity|].
  rewrite scan_all; [reflexivity | apply formatted_keywords_distinct | auto].
Qed.

Lemma distinct_after_filter
    (keep : string -> bool) (format : string -> string) (words : list string) :
  NoDup (map format words) -> NoDup (map format (filter keep words)).
Proof.
  induction words as [|w words IH]; simpl; intros Hnd; [constructor|].
  inversion Hnd as [|? ? Hw Hnd']; subst.
  destruct (keep w); simpl; [constructor|]; auto.
  intros Hin. apply Hw.
  apply in_map_iff in Hin as (x & Hx & Hin). apply filter_In in Hin as [Hin _].
  rewrite <- Hx. now apply in_map.
Qed.

Lemma extractSymptoms_NoDup (text : string) : NoDup (extractSymptoms text).
Proof.
  rewrite extractSymptoms_eq. destruct (hasNegation _); [constructor|].
  apply distinct_after_filter, formatted_keywords_distinct.
Qed.

Lemma extractSymptoms_negated (text : string) :
  Negated text -> extractSymptoms text = [].
Proof.
  intros H. apply hasNegation_iff in H. now rewrite extractSymptoms_eq, H.
Qed.

Lemma In_extractSymptoms (text label : string) :
  ~ Negated text ->
  (In label (extractSymptoms text) <->
   exists keyword, In keyword symptomKeywords /\
                   Substring keyword (toLowerCase text) /\
                   label = formatSymptom keyword).
Proof.
  intros H. apply hasNegation_false_iff in H.
  rewrite extractSymptoms_eq, H, in_map_iff.
  split; intros (k & H1 & H2); exists k.
  - apply filter_In in H2 as [Hin Hinc]. apply includes_iff in Hinc. auto.
  - destruct H2 as [Hsub ->]. split; [reflexivity|].
    apply filter_In. split; [exact H1 | now apply includes_iff].
Qed.

Lemma extractSymptoms_nonempty (text : string) :
  ~ Negated text -> MentionsKeyword text -> extractSymptoms text <> [].
Proof.
  intros Hneg (k & Hk & Hsub) Hnil.
  assert (In (formatSymptom k) (extractSymptoms text)) as Hin.
  { apply In_extractSymptoms; [exact Hneg|]. now exists k. }
  now rewrite Hnil in Hin.
Qed.

(** C7, as the specification states it, fails: the keyword chest pain occurs
    in an utterance without negation marker, and its title-cased form is not
    among the extracted labels. *)
Lemma extractSymptoms_not_title_cased :
  ~ Negated "I have chest pain" /\
  In "chest pain" symptomKeywords /\
  Substring "chest pain" (toLowerCase "I have chest pain") /\
  titleCase "chest pain" = "Chest Pain" /\
  extractSymptoms "I have chest pain" = ["Pain"; "Chest pain"] /\
  ~ In (titleCase "chest pain") (extractSymptoms "I have chest pain").
Proof.
  split; [now apply hasNegation_false_iff|].
  split; [unfold symptomKeywords; simpl; tauto|].
  split; [now apply includes_iff|].
  split; [reflexivity|].
  split; [reflexivity|].
  intros [H|[H|[]]]; discriminate.
Qed.

(** C7, amended.  On an input without negation marker the extractor returns
    exactly the vocabulary keywords that occur in the lower-cased input, each
    with its first character upper-cased and the rest unchanged (chest pain
    becomes Chest pain), in vocabulary order and without duplicates. *)
Theorem extractSymptoms_exact (text : string) :
  ~ Negated text ->
  (forall label,
      In label (extractSymptoms text) <->
      exists keyword, In keyword symptomKeywords /\
                      Substring keyword (toLowerCase text) /\
                      label = toUpperCase (charAt0 keyword) ++ slice1 keyword) /\
  NoDup (extractSymptoms text) /\
  extractSymptoms text
  = map formatSymptom (filter (includes (toLowerCase text)) symptomKeywords).
Proof.
  intros Hneg. split; [|split].
  - intros label. now apply In_extractSymptoms.
  - apply extractSymptoms_NoDup.
  - apply hasNegation_false_iff in Hneg. now rewrite extractSymptoms_eq, Hneg.
Qed.

Lemma extractSymptoms_exact_witness :
  NoDup (extractSymptoms "I have chest pain") /\
  extractSymptoms "I have chest pain"
  = map formatSymptom
      (filter (includes (toLowerCase "I have chest pain")) symptomKeywords).
Proof.
  apply (extractSymptoms_exact "I have chest pain").
  apply hasNegation_false_iff. reflexivity.
Defined.

End ExtractorFacts.

(** ** The conversation engine *)

Module EngineFacts.
Import Js AIService AIVoiceConsultation Spec JsFacts ExtractorFacts.

Lemma isWhiteSpace_lowerChar (c : ascii) : isWhiteSpace (lowerChar c) = isWhiteSpace c.
Proof. destruct c as [[] [] [] [] [] [] [] []]; reflexivity. Qed.

Lemma isBlank_toLowerCase (s : string) : isBlank (toLowerCase s) = isBlank s.
Proof.
  induction s as [|c s IH]; simpl; [reflexivity|].
  now rewrite isWhiteSpace_lowerChar, IH.
Qed.

Lemma isBlank_app (a b : string) : isBlank (a ++ b) = isBlank a && isBlank b.
Proof.
  induction a as [|c a IH]; simpl; [reflexivity|].
  now rewrite IH, andb_assoc.
Qed.

(** A blank text contains no pattern that has a character other than white
    space. *)
Lemma Substring_not_blank (pat text : string) :
  isBlank pat = false -> Substring pat (toLowerCase text) -> isBlank text = false.
Proof.
  intros Hpat (before & after & Heq).
  rewrite <- isBlank_toLowerCase, Heq, !isBlank_app, Hpat.
  now rewrite andb_false_r.
Qed.

Lemma keywords_not_blank (k : string) : In k symptomKeywords -> isBlank k = false.
Proof.
  assert (forallb (fun k => negb (isBlank k)) symptomKeywords = true) as H
      by reflexivity.
  rewrite forallb_forall in H. intros Hk. now apply negb_true_iff, H.
Qed.

Lemma MentionsKeyword_not_blank (text : string) :
  MentionsKeyword text -> isBlank text = false.
Proof.
  intros (k & Hk & Hsub).
  exact (Substring_not_blank k text (keywords_not_blank k Hk) Hsub).
Qed.

Lemma handleUserMessage_blank (o : Oracle) (r : Render) (text : string) (c : Component) :
  isBlank text = true -> handleUserMessage o r text c = c.
Proof.
  intros H. apply trim_falsy_iff in H.
  unfold handleUserMessage, handleUserMessageBegin. now rewrite H.
Qed.

(** An utterance that is not blank is recorded, answered by exactly one
    system utterance, and that utterance is spoken. *)
Lemma handleUserMessage_engine (o : Oracle) (r : Render) (text : string) (c : Component) :
  isBlank text = false ->
  let c' := handleUserMessage o r text c in
  let step := engineStep o text (conversationState c) in
  conversationState c' = fst step /\
  spoken c' = Some (snd step) /\
  messages c' = (messages c ++ [ {| m_type := user; m_text := text |};
                                 {| m_type := ai; m_text := snd step |} ])%list.
Proof.
  intros H. cbv zeta.
  assert (truthy (trim text) = true) as Ht.
  { destruct (truthy (trim text)) eqn:E; [reflexivity|].
    apply trim_falsy_iff in E. congruence. }
  unfold handleUserMessage, handleUserMessageBegin, handleUserMessageResume, engineStep.
  rewrite Ht.
  destruct c as [li sp pr ms it ar cs sr [id|] vs ts nt tt]; simpl;
    (destruct (getAIResponseForState o (recordUtterance text cs) text) as [resp|];
     [destruct (nextStage resp)|]; simpl;
     rewrite <- ?app_assoc; auto).
Qed.

Lemma conversationState_handleUserMessage
    (o : Oracle) (r : Render) (text : string) (c : Component) :
  conversationState (handleUserMessage o r text c)
  = nextConversationState o text (conversationState c).
Proof.
  unfold nextConversationState. destruct (isBlank text) eqn:H.
  - now rewrite handleUserMessage_blank.
  - now apply handleUserMessage_engine.
Qed.

Lemma conversationState_converse
    (o : Oracle) (r : Render) (utterances : list string) (c : Component) :
  conversationState (converse o r utterances c)
  = fold_left (fun cs text => nextConversationState o text cs) utterances
              (conversationState c).
Proof.
  revert c. induction utterances as [|u us IH]; intros c; simpl; [reflexivity|].
  unfold converse in *. simpl. now rewrite IH, conversationState_handleUserMessage.
Qed.

Lemma getAIResponseForState_total (o : Oracle) (cs : ConversationState) (text : string) :
  exists m s, getAIResponseForState o cs text = Ok {| message := m; nextStage := Some s |}.
Proof.
  unfold getAIResponseForState.
  destruct (stage cs).
  - destruct (symptoms cs); eauto.
  - repeat match goal with |- context [if ?b then _ else _] => destruct b end; eauto.
  - repeat match goal with |- context [if ?b then _ else _] => destruct b end; eauto.
  - repeat match goal with |- context [if ?b then _ else _] => destruct b end; eauto.
Qed.

Lemma symptoms_engineStep (o : Oracle) (text : string) (cs : ConversationState) :
  symptoms (fst (engineStep o text cs)) = symptoms (recordUtterance text cs).
Proof.
  unfold engineStep.
  destruct (getAIResponseForState_total o (recordUtterance text cs) text)
    as (m & s & ->).
  reflexivity.
Qed.

Lemma symptoms_recordUtterance (text : string) (cs : ConversationState) :
  symptoms (recordUtterance text cs)
  = match extractSymptoms text with
    | [] => symptoms cs
    | _ :: _ => uniq (symptoms cs ++ extractSymptoms text)
    end.
Proof. unfold recordUtterance. simpl. now destruct (extractSymptoms text). Qed.

Lemma uniq_nil (arr : list string) : uniq arr = [] -> arr = [].
Proof. destruct arr; [reflexivity | discriminate]. Qed.

Lemma symptoms_recordUtterance_nonempty (text : string) (cs : ConversationState) :
  symptoms cs <> [] -> symptoms (recordUtterance text cs) <> [].
Proof.
  rewrite symptoms_recordUtterance. intros H.
  destruct (extractSymptoms text); [exact H|].
  intros E. apply uniq_nil, app_eq_nil in E as [E _]. contradiction.
Qed.

(** The transition table, stage by stage. *)
Lemma engineStep_stage (o : Oracle) (text : string) (cs : ConversationState) :
  let cs' := fst (engineStep o text cs) in
  match stage cs with
  | greeting => stage cs' = collecting
  | collecting =>
      stage cs' = collecting \/ (stage cs' = analyzing /\ symptoms cs' <> [])
  | analyzing =>
      (stage cs' = complete /\ wantsAnalysis (toLowerCase text) = true) \/
      stage cs' = analyzing \/
      (stage cs' = collecting /\ wantsAnalysis (toLowerCase text) = true
       /\ symptoms cs' = [])
  | complete => stage cs' = complete
  end.
Proof.
  cbv zeta. unfold engineStep, getAIResponseForState.
  assert (stage (recordUtterance text cs) = stage cs) as Hst by reflexivity.
  remember (recordUtterance text cs) as cs1 eqn:E. clear E. rewrite <- Hst. clear Hst.
  destruct (stage cs1).
  - destruct (symptoms cs1); reflexivity.
  - destruct (symptoms cs1) as [|s0 rest] eqn:Hs; simpl;
      destruct (3 <=? _)%Z; simpl; auto.
    right. split; [reflexivity|]. rewrite Hs. discriminate.
  - destruct (wantsAnalysis (toLowerCase text)); simpl; auto.
    destruct (symptoms cs1) as [|s0 rest] eqn:Hs; simpl; auto.
  - destruct (wantsConsultation (toLowerCase text)); reflexivity.
Qed.

Lemma mentions_by_computation (text : string) :
  existsb (includes (toLowerCase text)) symptomKeywords = true -> MentionsKeyword text.
Proof.
  intros H. apply existsb_exists in H as (k & Hk & Hinc).
  exists k. split; [exact Hk | now apply includes_iff].
Qed.

Lemma not_negated_by_computation (text : string) :
  hasNegation (toLowerCase text) = false -> ~ Negated text.
Proof. apply hasNegation_false_iff. Qed.

Lemma substring_by_computation (pat s : string) :
  includes s pat = true -> Substring pat s.
Proof. apply includes_iff. Qed.

(** *** C10: blank utterances *)

(** C10.  An utterance that is empty or consists of white space only leaves
    the component as it is: stage, turnCount, symptoms and transcript keep
    their values, no message is added and nothing is spoken. *)
Theorem blank_utterance_is_noop
    (o : Oracle) (r : Render) (text : string) (c : Component) :
  isBlank text = true ->
  let c' := handleUserMessage o r text c in
  c' = c /\
  stage (conversationState c') = stage (conversationState c) /\
  turnCount (conversationState c') = turnCount (conversationState c) /\
  symptoms (conversationState c') = symptoms (conversationState c) /\
  fullTranscript (conversationState c') = fullTranscript (conversationState c) /\
  messages c' = messages c /\
  spoken c' = spoken c.
Proof.
  intros H. cbv zeta. rewrite (handleUserMessage_blank o r text c H). tauto.
Qed.

Lemma blank_utterance_is_noop_witness :
  handleUserMessage unreachable firstRender "   " (mount idleService) = mount idleService /\
  handleUserMessage unreachable firstRender EmptyString (mount idleService)
  = mount idleService.
Proof.
  split.
  - apply (blank_utterance_is_noop unreachable firstRender "   " (mount idleService)).
    reflexivity.
  - apply (blank_utterance_is_noop unreachable firstRender EmptyString (mount idleService)).
    reflexivity.
Defined.

(** *** C3: the stage order *)

Lemma nextConversationState_stage (o : Oracle) (text : string) (cs : ConversationState) :
  let cs' := nextConversationState o text cs in
  stageRank (stage cs) <= stageRank (stage cs') \/
  (stage cs = analyzing /\ stage cs' = collecting /\
   wantsAnalysis (toLowerCase text) = true /\ symptoms cs' = []).
Proof.
  cbv zeta. unfold nextConversationState.
  destruct (isBlank text); [left; lia|].
  pose proof (engineStep_stage o text cs) as H. cbv zeta in H.
  destruct (stage cs); simpl.
  - left. rewrite H. simpl. lia.
  - left. destruct H as [-> | [-> _]]; simpl; lia.
  - destruct H as [[-> _] | [-> | (-> & Hw & Hs)]]; simpl; auto.
  - left. rewrite H. simpl. lia.
Qed.

Lemma nextConversationState_complete (o : Oracle) (text : string) (cs : ConversationState) :
  stage cs = complete -> stage (nextConversationState o text cs) = complete.
Proof.
  intros Hc. unfold nextConversationState.
  destruct (isBlank text); [exact Hc|].
  pose proof (engineStep_stage o text cs) as H. cbv zeta in H.
  now rewrite Hc in H.
Qed.

Lemma converse_complete (o : Oracle) (r : Render) (later : list string) (c : Component) :
  stage (conversationState c) = complete ->
  stage (conversationState (converse o r later c)) = complete.
Proof.
  rewrite conversationState_converse.
  generalize (conversationState c) as cs.
  induction later as [|u us IH]; intros cs Hc; simpl; [exact Hc|].
  apply IH. now apply nextConversationState_complete.
Qed.

(** C3.  Along every sequence of utterances, from the initial state or any
    other, each utterance leaves the stage where it is or moves it forward in
    the order greeting < collecting < analyzing < complete, except for the
    step from analyzing back to collecting, taken on a completion signal
    with no symptom recorded; and a conversation that is complete stays
    complete whatever is said later. *)
Theorem stage_never_regresses
    (o : Oracle) (r : Render) (c0 : Component) (before : list string) (text : string) :
  let c := converse o r before c0 in
  let c' := handleUserMessage o r text c in
  (stageRank (stage (conversationState c)) <= stageRank (stage (conversationState c')) \/
   (stage (conversationState c) = analyzing /\
    stage (conversationState c') = collecting /\
    wantsAnalysis (toLowerCase text) = true /\
    symptoms (conversationState c') = [])) /\
  (stage (conversationState c) = complete ->
   forall later, stage (conversationState (converse o r later c)) = complete).
Proof.
  cbv zeta. split.
  - rewrite conversationState_handleUserMessage. apply nextConversationState_stage.
  - intros Hc later. now apply converse_complete.
Qed.

Lemma stage_never_regresses_witness :
  stage (conversationState
           (converse unreachable firstRender ["yes please"; "thank you"]
              (converse unreachable firstRender headacheScenario (mount idleService))))
  = complete.
Proof.
  apply (proj2 (stage_never_regresses unreachable firstRender (mount idleService)
                  headacheScenario "yes please")).
  reflexivity.
Defined.

(** From the initial state the stages analyzing and complete are entered with
    a symptom on record, so the backward step is never taken there. *)
Lemma SymptomsOnRecord_step (o : Oracle) (text : string) (cs : ConversationState) :
  SymptomsOnRecord cs -> SymptomsOnRecord (nextConversationState o text cs).
Proof.
  unfold nextConversationState. destruct (isBlank text); [auto|].
  intros Hinv. unfold SymptomsOnRecord in *.
  pose proof (engineStep_stage o text cs) as H. cbv zeta in H.
  pose proof (symptoms_engineStep o text cs) as Hs.
  pose proof (symptoms_recordUtterance_nonempty text cs) as Hne.
  destruct (stage cs).
  - now rewrite H.
  - destruct H as [-> | [-> H]]; auto.
  - destruct H as [[-> _] | [-> | (-> & _)]]; auto; rewrite Hs; auto.
  - rewrite H, Hs. auto.
Qed.

Lemma SymptomsOnRecord_converse
    (o : Oracle) (r : Render) (utterances : list string) (c : Component) :
  SymptomsOnRecord (conversationState c) ->
  SymptomsOnRecord (conversationState (converse o r utterances c)).
Proof.
  rewrite conversationState_converse.
  generalize (conversationState c) as cs.
  induction utterances as [|u us IH]; intros cs H; simpl; [exact H|].
  apply IH. now apply SymptomsOnRecord_step.
Qed.

Lemma stage_monotone_from_mount
    (o : Oracle) (r : Render) (vs : VoiceService.t Render)
    (before : list string) (text : string) :
  let c := converse o r before (mount vs) in
  stageRank (stage (conversationState c))
  <= stageRank (stage (conversationState (handleUserMessage o r text c))).
Proof.
  cbv zeta. rewrite conversationState_handleUserMessage.
  pose proof (SymptomsOnRecord_converse o r before (mount vs) I) as Hinv.
  destruct (nextConversationState_stage o text
              (conversationState (converse o r before (mount vs))))
    as [H | (Ha & Hc & _ & Hs)]; [exact H|].
  exfalso. unfold SymptomsOnRecord in Hinv. rewrite Ha in Hinv.
  unfold nextConversationState in Hs, Hc.
  destruct (isBlank text); [congruence|].
  rewrite symptoms_engineStep in Hs.
  exact (symptoms_recordUtterance_nonempty text _ Hinv Hs).
Qed.

(** *** C2: accumulation of symptoms *)

Lemma symptoms_handleUserMessage
    (o : Oracle) (r : Render) (text : string) (c : Component) :
  symptoms (conversationState (handleUserMessage o r text c))
  = if isBlank text then symptoms (conversationState c)
    else match extractSymptoms text with
         | [] => symptoms (conversationState c)
         | _ :: _ => uniq (symptoms (conversationState c) ++ extractSymptoms text)
         end.
Proof.
  rewrite conversationState_handleUserMessage. unfold nextConversationState.
  destruct (isBlank text); [reflexivity|].
  now rewrite symptoms_engineStep, symptoms_recordUtterance.
Qed.

(** C2, as the specification states it, fails: the second utterance has no
    negation marker and names a known keyword, and the symptoms are what they
    were before it. *)
Lemma repeated_symptom_is_no_strict_growth :
  let c1 := handleUserMessage unreachable firstRender "I have a fever" (mount idleService) in
  let c2 := handleUserMessage unreachable firstRender "I still have a fever" c1 in
  ~ Negated "I still have a fever" /\
  MentionsKeyword "I still have a fever" /\
  symptoms (conversationState c1) = ["Fever"] /\
  symptoms (conversationState c2) = ["Fever"] /\
  ~ StrictSuperset (symptoms (conversationState c2)) (symptoms (conversationState c1)).
Proof.
  cbv zeta.
  split; [now apply not_negated_by_computation|].
  split; [now apply mentions_by_computation|].
  split; [reflexivity|].
  split; [reflexivity|].
  intros [_ (x & Hin & Hout)]. apply Hout. exact Hin.
Qed.

(** C2, amended.  After an utterance without negation marker that names a
    known keyword, the symptoms are the union of their previous value and the
    labels extracted from the utterance: a superset of the previous value,
    strictly larger exactly when an extracted label is new.  After an
    utterance with a negation marker the symptoms are unchanged. *)
Theorem symptoms_grow_by_union
    (o : Oracle) (r : Render) (text : string) (c : Component) :
  let before := symptoms (conversationState c) in
  let after := symptoms (conversationState (handleUserMessage o r text c)) in
  (Negated text -> after = before) /\
  (~ Negated text -> MentionsKeyword text ->
     extractSymptoms text <> [] /\
     after = uniq (before ++ extractSymptoms text) /\
     (forall x, In x after <-> In x before \/ In x (extractSymptoms text)) /\
     incl before after /\
     (StrictSuperset after before <->
      exists x, In x (extractSymptoms text) /\ ~ In x before)).
Proof.
  cbv zeta. rewrite symptoms_handleUserMessage. split.
  - intros Hneg. rewrite (extractSymptoms_negated text Hneg).
    now destruct (isBlank text).
  - intros Hneg Hkw.
    rewrite (MentionsKeyword_not_blank text Hkw).
    pose proof (extractSymptoms_nonempty text Hneg Hkw) as Hne.
    destruct (extractSymptoms text) as [|l ls] eqn:Hx; [contradiction|].
    set (before := symptoms (conversationState c)).
    assert (forall x, In x (uniq (before ++ l :: ls)) <-> In x before \/ In x (l :: ls))
      as Hin by (intros x; now rewrite In_uniq, in_app_iff).
    split; [discriminate|]. split; [reflexivity|]. split; [exact Hin|].
    split; [intros x Hb; apply Hin; now left|].
    split.
    + intros [_ (x & Hx1 & Hx2)]. exists x.
      apply Hin in Hx1 as [Hx1|Hx1]; [contradiction | now split].
    + intros (x & Hx1 & Hx2). split; [intros y Hy; apply Hin; now left|].
      exists x. split; [apply Hin; now right | exact Hx2].
Qed.

Lemma symptoms_grow_by_union_witness :
  let c1 := handleUserMessage unreachable firstRender "I have a fever" (mount idleService) in
  let c2 := handleUserMessage unreachable firstRender "now a cough and still the fever" c1 in
  let c3 := handleUserMessage unreachable firstRender "I don't have a headache" c2 in
  symptoms (conversationState c2)
  = uniq (symptoms (conversationState c1)
          ++ extractSymptoms "now a cough and still the fever") /\
  symptoms (conversationState c3) = symptoms (conversationState c2).
Proof.
  cbv zeta.
  pose proof (symptoms_grow_by_union unreachable firstRender
                "now a cough and still the fever"
                (handleUserMessage unreachable firstRender "I have a fever"
                   (mount idleService))) as H2.
  pose proof (symptoms_grow_by_union unreachable firstRender
                "I don't have a headache"
                (handleUserMessage unreachable firstRender
                   "now a cough and still the fever"
                   (handleUserMessage unreachable firstRender "I have a fever"
                      (mount idleService)))) as H3.
  cbv zeta in H2, H3. split.
  - refine (proj1 (proj2 (proj2 H2 _ _))).
    + apply not_negated_by_computation. reflexivity.
    + apply mentions_by_computation. reflexivity.
  - refine (proj1 H3 _).
    left. apply substring_by_computation. reflexivity.
Defined.

(** *** C4: the negation guard *)

(** C4.  Whenever a negation marker occurs in the lower-cased input, the
    extractor returns nothing; the utterance I don't have any pain, said at
    the greeting, leaves the symptoms empty (no Pain among them), moves the
    stage to collecting and is answered by the generic prompt. *)
Theorem negation_extracts_nothing
    (o : Oracle) (r : Render) (vs : VoiceService.t Render) :
  (forall text, Negated text -> extractSymptoms text = []) /\
  (let c := handleUserMessage o r "I don't have any pain" (mount vs) in
   Negated "I don't have any pain" /\
   stage (conversationState (mount vs)) = greeting /\
   symptoms (conversationState c) = [] /\
   ~ In "Pain" (symptoms (conversationState c)) /\
   stage (conversationState c) = collecting /\
   spoken c = Some "Please describe your symptoms. What's bothering you?").
Proof.
  split; [exact extractSymptoms_negated|].
  cbv zeta.
  destruct (handleUserMessage_engine o r "I don't have any pain" (mount vs) eq_refl)
    as (Hcs & Hsp & _).
  rewrite Hcs, Hsp.
  split; [left; now apply substring_by_computation|].
  split; [reflexivity|].
  split; [reflexivity|].
  split; [intros []|].
  split; reflexivity.
Qed.

Lemma negation_extracts_nothing_witness :
  extractSymptoms "No fever, nothing hurts and I don't cough" = [].
Proof.
  apply (proj1 (negation_extracts_nothing unreachable firstRender idleService)).
  left. apply substring_by_computation. reflexivity.
Defined.

(** *** C9: the completion signal *)

Lemma wantsAnalysis_no (lowerMsg : string) :
  Substring "no" lowerMsg -> wantsAnalysis lowerMsg = true.
Proof.
  intros H. apply includes_iff in H. unfold wantsAnalysis. now rewrite H.
Qed.

(** C9.  In the stage analyzing, every utterance whose lower-cased text has
    the letters n, o next to each other is a completion signal; with a
    symptom on record it runs the analysis, whose message is spoken, and the
    stage becomes complete. *)
Theorem no_anywhere_signals_completion
    (o : Oracle) (r : Render) (text : string) (c : Component) :
  stage (conversationState c) = analyzing ->
  symptoms (conversationState c) <> [] ->
  Substring "no" (toLowerCase text) ->
  let c' := handleUserMessage o r text c in
  wantsAnalysis (toLowerCase text) = true /\
  stage (conversationState c') = complete /\
  spoken c' = Some (performAnalysis o (recordUtterance text (conversationState c))).
Proof.
  intros Hst Hsy Hno. cbv zeta.
  pose proof (wantsAnalysis_no _ Hno) as Hw.
  assert (isBlank text = false) as Hb
      by (apply (Substring_not_blank "no" text); [reflexivity | exact Hno]).
  destruct (handleUserMessage_engine o r text c Hb) as (Hcs & Hsp & _).
  rewrite Hcs, Hsp. split; [exact Hw|].
  pose proof (symptoms_recordUtterance_nonempty text _ Hsy) as Hne.
  unfold engineStep, getAIResponseForState.
  assert (stage (recordUtterance text (conversationState c)) = analyzing) as ->
      by exact Hst.
  rewrite Hw.
  destruct (symptoms (recordUtterance text (conversationState c))); [contradiction|].
  split; reflexivity.
Qed.

Lemma no_anywhere_signals_completion_witness :
  let c := converse unreachable firstRender
             ["my throat is sore"; "since monday"; "quite bad"] (mount idleService) in
  stage (conversationState (handleUserMessage unreachable firstRender "I know" c))
  = complete /\
  stage (conversationState (handleUserMessage unreachable firstRender "not yet" c))
  = complete.
Proof.
  cbv zeta. split.
  - apply (no_anywhere_signals_completion unreachable firstRender "I know"
             (converse unreachable firstRender
                ["my throat is sore"; "since monday"; "quite bad"] (mount idleService))).
    + vm_compute. reflexivity.
    + vm_compute. discriminate.
    + apply substring_by_computation. reflexivity.
  - apply (no_anywhere_signals_completion unreachable firstRender "not yet"
             (converse unreachable firstRender
                ["my throat is sore"; "since monday"; "quite bad"] (mount idleService))).
    + vm_compute. reflexivity.
    + vm_compute. discriminate.
    + apply substring_by_computation. reflexivity.
Defined.

(** *** C1: the scripted session *)

Lemma performAnalysis_fallback (o : Oracle) (cs : ConversationState) :
  apiKey o = true ->
  OracleFails o (symptoms cs) (join " " (fullTranscript cs)) ->
  performAnalysis o cs
  = match callToUpperCase
            (priority (getFallbackAnalysis (symptoms cs) (join " " (fullTranscript cs))))
    with
    | Ok priorityUpper =>
        analysisMessage
          priorityUpper
          (show (recommendation
                   (getFallbackAnalysis (symptoms cs) (join " " (fullTranscript cs)))))
          (show (or (specialty
                       (getFallbackAnalysis (symptoms cs) (join " " (fullTranscript cs))))
                    (Str "General Practitioner")))
    | Throw => recordedMessage (symptoms cs)
    end.
Proof.
  intros Hkey Hfail. unfold performAnalysis, getAIService. rewrite Hkey. simpl.
  rewrite (AIServiceFacts.analyzeSymptoms_fallback o _ _ Hfail). simpl.
  now destruct (callToUpperCase _).
Qed.

(** [performAnalysis] returns one of its two messages and never throws. *)
Lemma performAnalysis_shape (o : Oracle) (cs : ConversationState) :
  performAnalysis o cs = recordedMessage (symptoms cs) \/
  exists priorityUpper recommendation specialty,
    performAnalysis o cs = analysisMessage priorityUpper recommendation specialty.
Proof.
  unfold performAnalysis, getAIService.
  destruct (apiKey o); simpl; [|now left].
  destruct (AIServiceFacts.analyzeSymptoms_total o (symptoms cs)
              (join " " (fullTranscript cs))) as [a ->].
  simpl. destruct (callToUpperCase (priority a)); simpl; eauto.
Qed.




End EngineFacts.

(** ** The automated session *)

Module SessionFacts.
Import Js AIService AIVoiceConsultation Session Spec.

Lemma filter_filter_length {A : Type} (f g : A -> bool) (l : list A) :
  List.length (filter f (filter g l)) <= List.length (filter f l).
Proof.
  induction l as [|a l IH]; simpl; [lia|].
  destruct (g a) eqn:Hg, (f a) eqn:Hf; simpl; rewrite ?Hf; simpl; lia.
Qed.

Lemma clearTimeout_obs (id : nat) (c : Component) :
  Keeps c (clearTimeout id c) /\ restarts (clearTimeout id c) <= restarts c.
Proof.
  unfold Keeps, restarts. simpl. repeat split. apply filter_filter_length.
Qed.

Lemma clearProcessingTimeout_obs (c : Component) :
  Keeps c (clearProcessingTimeout c) /\ restarts (clearProcessingTimeout c) <= restarts c.
Proof.
  unfold clearProcessingTimeout. destruct (processingTimeoutRef c) as [id|].
  - destruct (clearTimeout_obs id c) as [(H1 & H2 & H3) H4].
    unfold Keeps, restarts in *. simpl in *. auto.
  - unfold Keeps. auto.
Qed.

Lemma setTimeout_obs (body : Timer) (ms : Z) (c : Component) :
  Keeps c (fst (setTimeout body ms c)) /\
  restarts (fst (setTimeout body ms c))
  = restarts c + (if startsCapture (nextTimer c, (ms, body)) then 1 else 0).
Proof.
  unfold Keeps, restarts. simpl. repeat split.
  rewrite filter_app, length_app. simpl.
  destruct (startsCapture _); reflexivity.
Qed.

Lemma find_filter_length {A : Type} (f : A -> bool) (key : A -> nat) (id : nat)
    (l : list A) (x : A) :
  find (fun t => Nat.eqb (key t) id) l = Some x ->
  List.length (filter f (filter (fun t => negb (Nat.eqb (key t) id)) l))
  + (if f x then 1 else 0)
  <= List.length (filter f l).
Proof.
  induction l as [|a l IH]; simpl; [discriminate|].
  destruct (Nat.eqb (key a) id) eqn:Ha; simpl.
  - intros [= ->]. pose proof (filter_filter_length f
                                 (fun t => negb (Nat.eqb (key t) id)) l).
    destruct (f x); simpl; lia.
  - intros H. specialize (IH H). destruct (f a); simpl; lia.
Qed.

Ltac observe :=
  unfold Keeps, restarts in *; simpl in *;
  rewrite ?filter_app, ?length_app; simpl;
  repeat match goal with
         | |- context [List.length (filter ?f (filter ?g ?l))] =>
             lazymatch goal with
             | _ : List.length (filter f (filter g l)) <= _ |- _ => fail
             | _ => pose proof (filter_filter_length f g l)
             end
         end.

Lemma captureOnResult_obs (r : Render) (transcript : string) (isFinal : bool)
    (c : Component) :
  Keeps c (captureOnResult r transcript isFinal c) /\
  restarts (captureOnResult r transcript isFinal c) <= restarts c.
Proof.
  destruct c as [li sp pr ms it ar cs sr [id|] vs ts nt tt], isFinal;
    unfold captureOnResult; observe; repeat split; lia.
Qed.

Lemma captureOnError_obs (r : Render) (error : string) (c : Component) :
  let c' := captureOnError r error c in
  voiceService c' = voiceService c /\
  isListening c' = false /\
  isSpeaking c' = isSpeaking c /\
  restarts c' <= restarts c + 1.
Proof.
  destruct c as [li sp pr ms it ar cs sr [id|] vs ts nt tt];
    unfold captureOnError; cbv zeta; simpl;
    destruct (error =? "no-speech"), (error =? "aborted"), sr, (r_autoResumeListen r);
    observe; repeat split; lia.
Qed.

Lemma captureOnError_start_failure (r : Render) (c : Component) :
  restarts (captureOnError r "Failed to start speech recognition" c) <= restarts c.
Proof.
  destruct c as [li sp pr ms it ar cs sr [id|] vs ts nt tt];
    unfold captureOnError; simpl; observe; lia.
Qed.

(** Pressing or re-arming capture never starts playback, and schedules no
    restart. *)
Lemma handleStartListening_obs (r : Render) (startOk : bool) (c : Component) :
  let c' := handleStartListening r startOk c in
  (VoiceService.speaking (voiceService c') = true ->
   VoiceService.speaking (voiceService c) = true) /\
  (isSpeaking c' = true -> isSpeaking c = true) /\
  restarts c' <= restarts c /\
  ((VoiceService.isListening (voiceService c) = true ->
    VoiceService.recognition (voiceService c) = true) ->
   VoiceService.isListening (voiceService c') = true ->
   VoiceService.recognition (voiceService c') = true).
Proof.
  cbv zeta.
  destruct c as [li sp pr ms it ar cs sr ref [rec hd lis spk cur] ts nt tt].
  unfold handleStartListening, VoiceService.isSpeechRecognitionSupported,
    VoiceService.startListening, VoiceService.stopSpeaking, VoiceService.stopListening.
  simpl.
  destruct rec; simpl; [|observe; repeat split; auto].
  destruct (r_isSpeaking r), spk, lis, startOk, ref as [id|]; simpl;
    observe; repeat split; auto; try discriminate; lia.
Qed.

Lemma handleUserMessageBegin_obs (o : Oracle) (r : Render) (text : string)
    (c : Component) :
  (VoiceService.isListening (voiceService c) = true ->
   VoiceService.recognition (voiceService c) = true) ->
  match handleUserMessageBegin o r text c with
  | (c', None) => c' = c
  | (c', Some _) =>
      VoiceService.isListening (voiceService c') = false /\
      VoiceService.speaking (voiceService c') = VoiceService.speaking (voiceService c) /\
      isListening c' = false /\
      isSpeaking c' = isSpeaking c /\
      restarts c' <= restarts c
  end.
Proof.
  unfold handleUserMessageBegin. destruct (negb (truthy (trim text))); [reflexivity|].
  destruct c as [li sp pr ms it ar cs sr ref [rec hd lis spk cur] ts nt tt].
  unfold VoiceService.stopListening. simpl. intros Hrec.
  destruct rec, lis, ref as [id|]; simpl; observe; repeat split;
    try lia; try (now discriminate Hrec).
Qed.

Lemma handleUserMessageResume_obs (r : Render) (reply : Result Response) (c : Component) :
  let c' := handleUserMessageResume r reply c in
  VoiceService.isListening (voiceService c') = VoiceService.isListening (voiceService c) /\
  VoiceService.speaking (voiceService c') = true /\
  isListening c' = isListening c /\
  isSpeaking c' = true /\
  restarts c' = restarts c /\
  VoiceService.recognition (voiceService c') = VoiceService.recognition (voiceService c).
Proof.
  cbv zeta.
  destruct c as [li sp pr ms it ar cs sr ref [rec hd lis spk cur] ts nt tt].
  unfold handleUserMessageResume, speakText, VoiceService.speak, VoiceService.stopSpeaking.
  destruct reply as [[m [s|]]|], spk; simpl; repeat split.
Qed.

Lemma speakOnEnd_obs (r : Render) (c : Component) :
  let c' := speakOnEnd r c in
  voiceService c' = voiceService c /\
  isListening c' = isListening c /\
  isSpeaking c' = false /\
  restarts c' <= restarts c + 1.
Proof.
  cbv zeta. destruct c as [li sp pr ms it ar cs sr ref vs ts nt tt].
  unfold speakOnEnd. simpl.
  destruct (sr && r_autoResumeListen r && negb (Stage_eqb (stage cs) complete));
    observe; repeat split; lia.
Qed.

Lemma speakOnError_obs (r : Render) (c : Component) :
  let c' := speakOnError r c in
  voiceService c' = voiceService c /\
  isListening c' = isListening c /\
  isSpeaking c' = false /\
  restarts c' <= restarts c + 1.
Proof.
  cbv zeta. destruct c as [li sp pr ms it ar cs sr ref vs ts nt tt].
  unfold speakOnError. simpl.
  destruct (sr && r_autoResumeListen r); observe; repeat split; lia.
Qed.

Lemma removeAt_length {A : Type} (n : nat) (l : list A) (x : A) :
  nth_error l n = Some x -> S (List.length (removeAt n l)) = List.length l.
Proof.
  revert n; induction l as [|a l IH]; intros [|n]; simpl; try discriminate.
  - reflexivity.
  - intros H. now rewrite (IH n H).
Qed.

Lemma find_some_of_existsb {A : Type} (f : A -> bool) (l : list A) :
  existsb f l = true -> exists x, find f l = Some x.
Proof.
  induction l as [|a l IH]; simpl; [discriminate|].
  destruct (f a); eauto.
Qed.

(** A handler that leaves the service and the two flags alone and adds no
    restart keeps the invariant. *)
Lemma Alternates_keeps (s : State) (c' : Component) :
  Keeps (component s) c' -> restarts c' <= restarts (component s) ->
  Alternates s -> Alternates {| component := c'; suspended := suspended s |}.
Proof.
  intros (Hvs & Hli & Hsp) Hr (Hph & H1 & H2 & H3 & H4).
  unfold Alternates, phases, capturing, speaking in *. simpl.
  rewrite Hvs, Hli, Hsp. repeat split; auto. lia.
Qed.

Lemma Alternates_start (r : Render) (recognitionSupported : bool) (entry : Entry) :
  Alternates (start r recognitionSupported entry).
Proof.
  destruct r as [[] [] []], recognitionSupported, entry as [[]|];
    unfold Alternates, phases, capturing, speaking; vm_compute;
    repeat split; intros; try discriminate; try contradiction; lia.
Qed.

(** Capture restarted from rest: no phase was in progress but the restart
    itself. *)
Lemma restart_keeps_alternation
    (r : Render) (startOk : bool) (c1 : Component) (waiting : list Suspended) (n : nat) :
  Alternates {| component := c1; suspended := waiting |} ->
  restarts c1 + 1 <= n ->
  (if VoiceService.isListening (voiceService c1) then 1 else 0)
  + (if VoiceService.speaking (voiceService c1) then 1 else 0)
  + n + List.length waiting <= 1 ->
  Alternates {| component := handleStartListening r startOk c1; suspended := waiting |}.
Proof.
  intros (Hph & H1 & H2 & H3 & H4) Hn Hidle.
  unfold phases, capturing, speaking in *. simpl in *.
  pose proof (handleStartListening_obs r startOk c1) as Hh. cbv zeta in Hh.
  destruct Hh as (HP' & Hsp' & Hr' & Hrec').
  destruct (VoiceService.isListening (voiceService c1)) eqn:HL; [lia|].
  destruct (VoiceService.speaking (voiceService c1)) eqn:HP; [lia|].
  assert (waiting = []) as -> by (destruct waiting; [reflexivity | simpl in Hidle; lia]).
  assert (VoiceService.speaking (voiceService (handleStartListening r startOk c1)) = false)
    as HP2.
  { destruct (VoiceService.speaking (voiceService (handleStartListening r startOk c1)))
      eqn:E; [|reflexivity].
    specialize (HP' eq_refl). discriminate. }
  unfold Alternates, phases, capturing, speaking. simpl. rewrite HP2.
  split; [|split; [|split; [|split]]].
  - destruct (VoiceService.isListening
                (voiceService (handleStartListening r startOk c1))); lia.
  - intros E. specialize (H1 (Hsp' E)). discriminate.
  - reflexivity.
  - intros E. now contradiction E.
  - intros E. apply Hrec'; [discriminate | exact E].
Qed.

Section Preservation.
Variable o : Oracle.
Variable s : State.
Hypothesis Hinv : Alternates s.

Lemma step_RecognitionResult (transcript : string) (isFinal : bool) :
  Alternates (step o (RecognitionResult transcript isFinal) s).
Proof.
  simpl. unfold recognitionResult.
  destruct (VoiceService.handlers (voiceService (component s))) as [r|].
  - destruct (captureOnResult_obs r transcript isFinal (component s)) as [Hk Hr].
    now apply Alternates_keeps.
  - destruct s. exact Hinv.
Qed.

Lemma step_RecognitionError (error : string) :
  capturing s = true -> Alternates (step o (RecognitionError error) s).
Proof.
  intros HL. simpl. unfold recognitionError.
  destruct (VoiceService.handlers (voiceService (component s))) as [r|];
    [|destruct s; exact Hinv].
  pose proof (captureOnError_obs r error
                (setVoiceService
                   (VoiceService.recognitionStopped (voiceService (component s)))
                   (component s))) as H.
  cbv zeta in H. destruct H as (Hvs & Hli & Hsp & Hr).
  destruct Hinv as (Hph & H1 & H2 & H3 & H4).
  unfold Alternates, phases, capturing, speaking, restarts in *. simpl in *.
  rewrite Hvs, Hli, Hsp. simpl. rewrite HL in Hph.
  destruct (VoiceService.speaking (voiceService (component s))) eqn:HP; [lia|].
  repeat split; auto; try discriminate. lia.
Qed.

Lemma step_RecognitionEnd : Alternates (step o RecognitionEnd s).
Proof.
  simpl.
  destruct (VoiceService.handlers (voiceService (component s))) as [r|];
    [|destruct s; exact Hinv].
  destruct Hinv as (Hph & H1 & H2 & H3 & H4).
  unfold Alternates, phases, capturing, speaking, restarts in *. simpl in *.
  repeat split; auto; try discriminate.
  destruct (VoiceService.isListening (voiceService (component s))); lia.
Qed.

Lemma step_UtteranceStart :
  speaking s = true -> Alternates (step o UtteranceStart s).
Proof.
  intros HP. simpl.
  destruct (VoiceService.currentUtterance (voiceService (component s))) as [[t r]|];
    [|destruct s; exact Hinv].
  destruct Hinv as (Hph & H1 & H2 & H3 & H4).
  unfold Alternates, phases, capturing, speaking, restarts in *. simpl in *.
  repeat split; auto.
Qed.

Lemma step_playback_over (callback : Render -> Component -> Component) :
  (forall r c0,
      voiceService (callback r c0) = voiceService c0 /\
      isListening (callback r c0) = isListening c0 /\
      isSpeaking (callback r c0) = false /\
      restarts (callback r c0) <= restarts c0 + 1) ->
  speaking s = true ->
  Alternates
    {| component :=
         match VoiceService.currentUtterance (voiceService (component s)) with
         | Some (_, r) =>
             callback r (setVoiceService
                           (VoiceService.utteranceDone (voiceService (component s)))
                           (component s))
         | None => component s
         end;
       suspended := suspended s |}.
Proof.
  intros Hcb HP.
  destruct (VoiceService.currentUtterance (voiceService (component s))) as [[t r]|];
    [|destruct s; exact Hinv].
  destruct (Hcb r (setVoiceService
                     (VoiceService.utteranceDone (voiceService (component s)))
                     (component s))) as (Hvs & Hli & Hsp & Hr).
  destruct Hinv as (Hph & H1 & H2 & H3 & H4).
  unfold Alternates, phases, capturing, speaking, restarts in *. simpl in *.
  rewrite Hvs, Hli, Hsp. simpl. rewrite HP in Hph.
  destruct (VoiceService.isListening (voiceService (component s))) eqn:HL; [lia|].
  repeat split; auto; try discriminate. lia.
Qed.

Lemma step_UtteranceEnd : speaking s = true -> Alternates (step o UtteranceEnd s).
Proof. apply (step_playback_over speakOnEnd). exact speakOnEnd_obs. Qed.

Lemma step_UtteranceError : speaking s = true -> Alternates (step o UtteranceError s).
Proof. apply (step_playback_over speakOnError). exact speakOnError_obs. Qed.

Lemma step_AwaitResumes (n : nat) :
  enabled (AwaitResumes n) s = true -> Alternates (step o (AwaitResumes n) s).
Proof.
  simpl. intros Hn. apply Nat.ltb_lt in Hn.
  destruct (nth_error (suspended s) n) as [k|] eqn:Hk;
    [|apply nth_error_None in Hk; lia].
  pose proof (removeAt_length n (suspended s) k Hk) as Hlen.
  pose proof (handleUserMessageResume_obs (fst k) (snd k) (component s)) as H.
  cbv zeta in H. destruct H as (HL & HP & Hli & Hsp & Hr & Hrec).
  destruct Hinv as (Hph & H1 & H2 & H3 & H4).
  assert (suspended s <> []) as Hne by (intros E; rewrite E in Hn; simpl in Hn; lia).
  specialize (H3 Hne).
  unfold Alternates, phases, capturing, speaking, resume in *. simpl in *.
  rewrite HL, HP, Hli, Hsp, Hr, Hrec.
  assert (removeAt n (suspended s) = []) as Hnil.
  { destruct (removeAt n (suspended s)); [reflexivity|].
    simpl in Hlen.
    destruct (VoiceService.isListening (voiceService (component s))),
      (VoiceService.speaking (voiceService (component s))); simpl in *; lia. }
  rewrite Hnil. simpl.
  destruct (VoiceService.isListening (voiceService (component s))) eqn:HL0;
    destruct (VoiceService.speaking (voiceService (component s))) eqn:HP0;
    simpl in *; repeat split; auto; try congruence; try lia.
Qed.

Lemma step_TimerFires (id : nat) (startOk : bool) :
  enabled (TimerFires id startOk) s = true ->
  Alternates (step o (TimerFires id startOk) s).
Proof.
  simpl. intros Hid. unfold fireTimer.
  destruct (find_some_of_existsb _ _ Hid) as ([id' [ms body]] & Hfind).
  rewrite Hfind.
  pose proof (find_filter_length startsCapture fst id (timers (component s)) _ Hfind)
    as Hcount.
  destruct (clearTimeout_obs id (component s)) as [(Hvs & Hli & Hsp) _].
  fold (restarts (component s)) in Hcount.
  change (List.length
            (filter startsCapture
               (filter (fun t => negb (Nat.eqb (fst t) id)) (timers (component s)))))
    with (restarts (clearTimeout id (component s))) in Hcount.
  set (c1 := clearTimeout id (component s)) in *. clearbody c1.
  assert (Alternates {| component := c1; suspended := suspended s |}) as Hinv1.
  { apply Alternates_keeps; [now repeat split | | exact Hinv].
    destruct (startsCapture (id', (ms, body))); lia. }
  assert (startsCapture (id', (ms, body)) = true ->
          forall r, Alternates {| component := handleStartListening r startOk c1;
                                  suspended := suspended s ++ [] |}) as Hrestart.
  { intros E r. rewrite E in Hcount. rewrite app_nil_r.
    apply (restart_keeps_alternation r startOk c1 (suspended s)
             (restarts (component s))); [exact Hinv1 | exact Hcount |].
    destruct Hinv as (Hph & _). rewrite Hvs. exact Hph. }
  destruct body as [r acc | r | r | r]; simpl.
  - (* the debounce timer: the utterance is committed if capture is still on *)
    unfold VoiceService.getIsListening.
    destruct (truthy acc && VoiceService.isListening (voiceService c1)) eqn:Hgo;
      [|simpl; rewrite app_nil_r; exact Hinv1].
    apply andb_true_iff in Hgo as [_ HL].
    destruct Hinv as (Hph & H1 & H2 & H3 & H4).
    unfold phases, capturing, speaking in Hph.
    pose proof (handleUserMessageBegin_obs o r acc c1) as Hb.
    rewrite Hvs in Hb, HL. specialize (Hb H4).
    destruct (handleUserMessageBegin o r acc c1) as [c2 [reply|]]; simpl.
    + destruct Hb as (HL2 & HP2 & Hli2 & Hsp2 & Hr2).
      rewrite HL in Hph.
      destruct (VoiceService.speaking (voiceService (component s))) eqn:HP; [lia|].
      assert (suspended s = []) as Hs
          by (destruct (suspended s); [reflexivity | simpl in Hph; lia]).
      unfold Alternates, phases, capturing, speaking. simpl.
      rewrite HL2, HP2, Hli2, Hsp2, Hs. simpl. simpl in Hcount.
      repeat split; auto; try discriminate; try lia.
      intros E. rewrite Hsp in E. specialize (H1 E). unfold speaking in H1. congruence.
    + subst c2. rewrite app_nil_r. exact Hinv1.
  - (* the retry after a capture error *)
    destruct (shouldResumeListening c1 && negb (r_isSpeaking r) && negb (r_isProcessing r));
      [apply (Hrestart eq_refl) | simpl; rewrite app_nil_r; exact Hinv1].
  - (* the grace timer after playback *)
    destruct (shouldResumeListening c1 && negb (r_isProcessing r));
      [apply (Hrestart eq_refl) | simpl; rewrite app_nil_r; exact Hinv1].
  - (* the timer of the Skip button *)
    apply (Hrestart eq_refl).
Qed.

End Preservation.

Lemma Alternates_step (o : Oracle) (s : State) (e : Event) :
  Alternates s -> enabled e s = true -> Alternates (step o e s).
Proof.
  intros Hinv He. destruct e.
  - now apply step_RecognitionResult.
  - now apply step_RecognitionError.
  - now apply step_RecognitionEnd.
  - now apply step_UtteranceStart.
  - now apply step_UtteranceEnd.
  - now apply step_UtteranceError.
  - now apply step_TimerFires.
  - now apply step_AwaitResumes.
Qed.

Lemma Alternates_reachable (o : Oracle) (init s : State) :
  Alternates init -> Reachable o init s -> Alternates s.
Proof.
  intros Hinit. induction 1 as [|s e Hs IH He]; [exact Hinit|].
  now apply Alternates_step.
Qed.

Lemma run_reachable (o : Oracle) (script : list Event) (init s s' : State) :
  Reachable o init s -> run o script s = Some s' -> Reachable o init s'.
Proof.
  revert s. induction script as [|e rest IH]; intros s Hs; simpl.
  - intros [= <-]. exact Hs.
  - destruct (enabled e s) eqn:He; [|discriminate].
    apply IH. now apply reach_step.
Qed.

Lemma Alternates_exclusive (s : State) :
  Alternates s ->
  capturing s && speaking s = false /\
  isListening (component s) && isSpeaking (component s) = false /\
  (suspended s <> [] -> capturing s = false) /\
  (0 < restarts (component s) -> speaking s = false).
Proof.
  intros (Hph & H1 & H2 & H3 & H4). unfold phases in Hph.
  split; [|split; [|split]].
  - destruct (capturing s), (speaking s); simpl in *; try reflexivity; lia.
  - destruct (isListening (component s)) eqn:Hl; [|reflexivity].
    destruct (isSpeaking (component s)) eqn:Hs; [|reflexivity].
    specialize (H1 eq_refl). specialize (H2 eq_refl). congruence.
  - intros Hne. destruct (capturing s); [|reflexivity].
    destruct (suspended s); [contradiction|].
    destruct (speaking s); simpl in Hph; lia.
  - intros Hr. destruct (speaking s); [|reflexivity].
    destruct (capturing s); simpl in Hph; lia.
Qed.



(** The lifecycle of the capture session carries the invariant: an error
    reported after capture was stopped is not an event of the session, and
    were it delivered while the reply is spoken, the retry timer would start
    capture during playback (the closure of the retry still holds the
    [isSpeaking] of the render in which the button was pressed). *)
Remark capture_error_outside_lifecycle :
  exists s,
    run unreachable (userSays "I have a really bad headache" 0)
      (start firstRender true (SpeakButton true)) = Some s /\
    speaking s = true /\
    enabled (RecognitionError "no-speech") s = false /\
    (let late := step unreachable (RecognitionError "no-speech") s in
     let retried := step unreachable (TimerFires 1 true) late in
     capturing retried && speaking retried = true).
Proof.
  eexists. split; [vm_compute; reflexivity|].
  repeat split; vm_compute; reflexivity.
Qed.

(** *** C6: resuming capture after playback *)

(** When playback ends, capture is re-armed only if the resume flag and the
    auto-resume setting are on and the conversation is not complete. *)
Lemma speakOnEnd_guard (r : Render) (c : Component) :
  timers (speakOnEnd r c) <> timers c ->
  shouldResumeListening c = true /\ r_autoResumeListen r = true /\
  stage (conversationState c) <> complete.
Proof.
  unfold speakOnEnd. simpl.
  destruct (shouldResumeListening c), (r_autoResumeListen r),
    (stage (conversationState c)); simpl; intros H;
    try (now contradiction H); repeat split; discriminate.
Qed.

Lemma speakOnEnd_complete (r : Render) (c : Component) :
  stage (conversationState c) = complete -> speakOnEnd r c = setIsSpeaking false c.
Proof.
  unfold speakOnEnd. simpl. intros ->. simpl. now rewrite andb_false_r.
Qed.

(** When playback fails, the stage is not consulted. *)
Lemma speakOnError_ignores_stage (r : Render) (c : Component) :
  shouldResumeListening c = true -> r_autoResumeListen r = true ->
  timers (speakOnError r c) = (timers c ++ [(nextTimer c, (800%Z, GraceTimer r))])%list.
Proof.
  unfold speakOnError. simpl. intros -> ->. reflexivity.
Qed.

(** C6, evaluated where the code departs from it.  The scripted session is
    driven to its last system utterance: the stage is complete and the
    analysis is being spoken.  If playback ends, no timer is set and capture
    stays off.  If playback fails, the grace timer is set although the stage
    is complete, and when it fires capture is on again. *)
Theorem playback_error_restarts_capture_when_complete :
  exists s,
    run unreachable headacheSession (start firstRender true (SpeakButton true)) = Some s /\
    stage (conversationState (component s)) = complete /\
    speaking s = true /\
    autoResumeListen (component s) = true /\
    (exists ended,
        run unreachable [UtteranceEnd] s = Some ended /\
        timers (component ended) = [] /\
        capturing ended = false) /\
    (exists failed,
        run unreachable [UtteranceError] s = Some failed /\
        timers (component failed) = [(7, (800%Z, GraceTimer firstRender))]) /\
    (exists resumed,
        run unreachable [UtteranceError; TimerFires 7 true] s = Some resumed /\
        stage (conversationState (component resumed)) = complete /\
        capturing resumed = true /\
        isListening (component resumed) = true).
Proof.
  eexists. split; [vm_compute; reflexivity|].
  split; [vm_compute; reflexivity|].
  split; [vm_compute; reflexivity|].
  split; [vm_compute; reflexivity|].
  split; [eexists; split; [vm_compute; reflexivity|]; split; vm_compute; reflexivity|].
  split; [eexists; split; vm_compute; reflexivity|].
  eexists. split; [vm_compute; reflexivity|].
  repeat split; vm_compute; reflexivity.
Qed.

End SessionFacts.

(** * Further properties of the code *)

(** ** Case, overlap and urgency *)

Module TextFacts.
Import Js AIService AIVoiceConsultation Spec Notions JsFacts AIServiceFacts ExtractorFacts.

Lemma lowerChar_upperChar (c : ascii) : lowerChar (upperChar c) = lowerChar c.
Proof. destruct c as [[] [] [] [] [] [] [] []]; reflexivity. Qed.

Lemma lowerChar_idem (c : ascii) : lowerChar (lowerChar c) = lowerChar c.
Proof. destruct c as [[] [] [] [] [] [] [] []]; reflexivity. Qed.

Lemma toLowerCase_toUpperCase (s : string) : toLowerCase (toUpperCase s) = toLowerCase s.
Proof.
  induction s as [|c s IH]; simpl; [reflexivity|].
  now rewrite lowerChar_upperChar, IH.
Qed.

Lemma toLowerCase_idem (s : string) : toLowerCase (toLowerCase s) = toLowerCase s.
Proof.
  induction s as [|c s IH]; simpl; [reflexivity|].
  now rewrite lowerChar_idem, IH.
Qed.

Lemma append_assoc (a b c : string) : ((a ++ b) ++ c = a ++ (b ++ c))%string.
Proof. induction a as [|x a IH]; simpl; [reflexivity | now rewrite IH]. Qed.

Lemma Substring_trans (a b c : string) : Substring a b -> Substring b c -> Substring a c.
Proof.
  intros (p1 & q1 & ->) (p2 & q2 & ->).
  exists (p2 ++ p1)%string, (q1 ++ q2)%string.
  now rewrite !append_assoc.
Qed.


(** A keyword that lies inside another keyword is recorded whenever the
    longer one is: Chest pain, Back pain and Neck pain never come without
    Pain, nor Headache without Ache. *)
Theorem nested_keywords_come_together (text inner outer : string) :
  In inner symptomKeywords -> In outer symptomKeywords -> Substring inner outer ->
  In (formatSymptom outer) (extractSymptoms text) ->
  In (formatSymptom inner) (extractSymptoms text).
Proof.
  intros Hinner Houter Hsub Hin.
  destruct (hasNegation (toLowerCase text)) eqn:Hneg.
  - apply hasNegation_iff in Hneg.
    now rewrite (extractSymptoms_negated text Hneg) in Hin.
  - apply hasNegation_false_iff in Hneg.
    apply (In_extractSymptoms text _ Hneg) in Hin as (k & Hk & Hks & Heq).
    apply (In_extractSymptoms text _ Hneg).
    exists inner. split; [exact Hinner|]. split; [|reflexivity].
    assert (k = outer) as ->.
    { pose proof formatted_keywords_distinct as Hnd.
      clear - Hnd Hk Houter Heq.
      induction symptomKeywords as [|x l IH]; [contradiction|].
      simpl in Hnd. inversion Hnd as [|? ? Hx Hl]; subst.
      destruct Hk as [->|Hk], Houter as [->|Houter]; auto.
      - exfalso. apply Hx. rewrite <- Heq. now apply in_map.
      - exfalso. apply Hx. rewrite Heq. now apply in_map. }
    exact (Substring_trans _ _ _ Hsub Hks).
Qed.

Lemma nested_keywords_come_together_witness :
  In "Pain" (extractSymptoms "My chest pain is back") /\
  In "Ache" (extractSymptoms "a HEADACHE since noon").
Proof.
  split.
  - apply (nested_keywords_come_together "My chest pain is back" "pain" "chest pain").
    + unfold symptomKeywords; simpl; tauto.
    + unfold symptomKeywords; simpl; tauto.
    + apply includes_iff. reflexivity.
    + vm_compute. tauto.
  - apply (nested_keywords_come_together "a HEADACHE since noon" "ache" "headache").
    + unfold symptomKeywords; simpl; tauto.
    + unfold symptomKeywords; simpl; tauto.
    + apply includes_iff. reflexivity.
    + vm_compute. tauto.
Defined.


Lemma someMarker_more (markers l more : list string) (d : string) :
  someMarker markers l d = true -> someMarker markers (l ++ more) d = true.
Proof.
  unfold someMarker. rewrite !existsb_exists.
  intros (m & Hm & H). exists m. split; [exact Hm|].
  rewrite existsb_app. apply orb_true_iff in H as [H|H]; rewrite H; simpl;
    [reflexivity | apply orb_true_r].
Qed.

(** Reporting more symptoms never lowers the priority the fallback assigns. *)
Theorem getFallbackAnalysis_escalates
    (symptoms more : list string) (description : string) :
  urgency (priority (getFallbackAnalysis symptoms description))
  <= urgency (priority (getFallbackAnalysis (symptoms ++ more) description)).
Proof.
  unfold getFallbackAnalysis. rewrite map_app.
  set (l := map toLowerCase symptoms). set (m := map toLowerCase more).
  set (d := toLowerCase description).
  pose proof (someMarker_more critical l m d) as Hc.
  pose proof (someMarker_more highPriority l m d) as Hh.
  destruct (someMarker critical l d), (someMarker critical (l ++ m) d),
    (someMarker highPriority l d), (someMarker highPriority (l ++ m) d);
    simpl; try lia;
    try (specialize (Hc eq_refl); discriminate);
    specialize (Hh eq_refl); discriminate.
Qed.

(** Whatever the oracle replies, every field of the analysis is truthy: a
    missing or falsy field of the reply is replaced by its default, and the
    fallback fills all four. *)
Theorem analyzeSymptoms_fields_truthy
    (o : Oracle) (symptoms : list string) (description : string) :
  exists a,
    analyzeSymptoms o symptoms description = Ok a /\
    valueTruthy (priority a) = true /\
    valueTruthy (recommendation a) = true /\
    valueTruthy (specialty a) = true /\
    valueTruthy (followUpQuestions a) = true.
Proof.
  rewrite analyzeSymptoms_cases.
  assert (forall v d, valueTruthy d = true -> valueTruthy (or v d) = true) as Hor.
  { intros v d Hd. unfold or. destruct (valueTruthy v) eqn:E; assumption. }
  assert (let a := getFallbackAnalysis symptoms description in
          valueTruthy (priority a) = true /\ valueTruthy (recommendation a) = true /\
          valueTruthy (specialty a) = true /\ valueTruthy (followUpQuestions a) = true)
    as Hfb.
  { unfold getFallbackAnalysis.
    destruct (someMarker critical _ _); [repeat split|].
    destruct (someMarker highPriority _ _); repeat split. }
  destruct (chatCompletion o _) as [content|]; [|eexists; split; [reflexivity | exact Hfb]].
  destruct (parseJSON o _); try (eexists; split; [reflexivity | exact Hfb]).
  eexists. split; [reflexivity|]. simpl. repeat split; apply Hor; reflexivity.
Qed.

End TextFacts.

(** ** Bookkeeping of the conversation *)

Module ConversationFacts.
Import Js AIService AIVoiceConsultation Spec Notions JsFacts ExtractorFacts EngineFacts.

Lemma engineStep_counts (o : Oracle) (text : string) (cs : ConversationState) :
  fullTranscript (fst (engineStep o text cs)) = (fullTranscript cs ++ [text])%list /\
  turnCount (fst (engineStep o text cs)) = (turnCount cs + 1)%Z.
Proof.
  unfold engineStep.
  destruct (getAIResponseForState_total o (recordUtterance text cs) text) as (m & s & ->).
  split; reflexivity.
Qed.

Lemma fold_counts (o : Oracle) (utterances : list string) (cs : ConversationState) :
  let cs' := fold_left (fun cs text => nextConversationState o text cs) utterances cs in
  fullTranscript cs' = (fullTranscript cs ++ accepted utterances)%list /\
  turnCount cs' = (turnCount cs + Z.of_nat (List.length (accepted utterances)))%Z.
Proof.
  cbv zeta. revert cs.
  induction utterances as [|u us IH]; intros cs; simpl.
  - rewrite app_nil_r. split; [reflexivity | lia].
  - destruct (IH (nextConversationState o u cs)) as [-> ->].
    unfold nextConversationState. destruct (isBlank u); simpl.
    + split; reflexivity.
    + destruct (engineStep_counts o u cs) as [-> ->].
      rewrite <- app_assoc. split; [reflexivity | lia].
Qed.

Lemma messages_converse (o : Oracle) (r : Render) (utterances : list string) (c : Component) :
  exists added,
    messages (converse o r utterances c) = (messages c ++ added)%list /\
    map m_type added = flat_map (fun _ => [user; ai]) (accepted utterances) /\
    map m_text (filter (fun m => match m_type m with user => true | ai => false end) added)
    = accepted utterances.
Proof.
  revert c. induction utterances as [|u us IH]; intros c.
  - exists []. simpl. now rewrite app_nil_r.
  - unfold converse in *. simpl.
    destruct (IH (handleUserMessage o r u c)) as (added & Hm & Ht & Hu).
    rewrite Hm. destruct (isBlank u) eqn:Hb; simpl.
    + rewrite (handleUserMessage_blank o r u c Hb). now exists added.
    + destruct (handleUserMessage_engine o r u c Hb) as (_ & _ & ->).
      eexists. rewrite <- app_assoc. split; [reflexivity|].
      simpl. rewrite Ht, Hu. split; reflexivity.
Qed.

Lemma converse_counts
    (o : Oracle) (r : Render) (utterances : list string) (c : Component) :
  fullTranscript (conversationState (converse o r utterances c))
  = (fullTranscript (conversationState c) ++ accepted utterances)%list /\
  turnCount (conversationState (converse o r utterances c))
  = (turnCount (conversationState c) + Z.of_nat (List.length (accepted utterances)))%Z.
Proof.
  rewrite conversationState_converse.
  exact (fold_counts o utterances (conversationState c)).
Qed.

(** Every utterance that is not blank, and no other, is counted once, kept
    verbatim in the transcript in the order spoken, shown as one user message
    and answered by exactly one system message. *)
Theorem conversation_accounting
    (o : Oracle) (r : Render) (utterances : list string) (c : Component) :
  let c' := converse o r utterances c in
  fullTranscript (conversationState c')
  = (fullTranscript (conversationState c) ++ accepted utterances)%list /\
  turnCount (conversationState c')
  = (turnCount (conversationState c) + Z.of_nat (List.length (accepted utterances)))%Z /\
  exists added,
    messages c' = (messages c ++ added)%list /\
    map m_type added = flat_map (fun _ => [user; ai]) (accepted utterances) /\
    map m_text (filter (fun m => match m_type m with user => true | ai => false end) added)
    = accepted utterances.
Proof.
  cbv zeta.
  destruct (converse_counts o r utterances c) as [H1 H2].
  split; [exact H1|]. split; [exact H2|]. apply messages_converse.
Qed.

Lemma extracted_labels_known (text label : string) :
  In label (extractSymptoms text) -> KnownLabel label.
Proof.
  rewrite extractSymptoms_eq. destruct (hasNegation _); [intros []|].
  intros H. apply in_map_iff in H as (k & <- & Hk).
  apply filter_In in Hk as [Hk _]. now exists k.
Qed.

Lemma symptoms_step_known (o : Oracle) (text : string) (cs : ConversationState) :
  NoDup (symptoms cs) /\ Forall KnownLabel (symptoms cs) ->
  NoDup (symptoms (nextConversationState o text cs)) /\
  Forall KnownLabel (symptoms (nextConversationState o text cs)).
Proof.
  intros [Hnd Hk]. unfold nextConversationState.
  destruct (isBlank text); [now split|].
  rewrite symptoms_engineStep, symptoms_recordUtterance.
  destruct (extractSymptoms text) as [|l ls] eqn:Hx; [now split|].
  split; [apply NoDup_uniq|].
  apply Forall_forall. intros x Hin. apply In_uniq, in_app_or in Hin as [Hin|Hin].
  - rewrite Forall_forall in Hk. now apply Hk.
  - apply (extracted_labels_known text). now rewrite Hx.
Qed.

(** From the initial state the recorded symptoms never repeat a label, and
    each label is a vocabulary keyword with its first letter in upper case. *)
Theorem symptoms_distinct_and_known
    (o : Oracle) (r : Render) (vs : VoiceService.t Render) (utterances : list string) :
  let cs := conversationState (converse o r utterances (mount vs)) in
  NoDup (symptoms cs) /\ Forall KnownLabel (symptoms cs).
Proof.
  cbv zeta. rewrite conversationState_converse. simpl.
  assert (NoDup (symptoms initialState) /\ Forall KnownLabel (symptoms initialState))
    as H by (split; constructor).
  revert H. generalize initialState as cs.
  induction utterances as [|u us IH]; intros cs H; simpl; [exact H|].
  apply IH. now apply symptoms_step_known.
Qed.

Lemma TurnsFitStage_step (o : Oracle) (text : string) (cs : ConversationState) :
  TurnsFitStage cs -> TurnsFitStage (nextConversationState o text cs).
Proof.
  unfold nextConversationState. destruct (isBlank text); [auto|].
  unfold TurnsFitStage, engineStep, getAIResponseForState.
  assert (stage (recordUtterance text cs) = stage cs) as Hst by reflexivity.
  assert (turnCount (recordUtterance text cs) = (turnCount cs + 1)%Z) as Htc by reflexivity.
  remember (recordUtterance text cs) as cs1 eqn:E. clear E.
  rewrite <- Hst. clear Hst.
  destruct (stage cs1); intros H.
  - destruct (symptoms cs1); simpl; lia.
  - destruct (negb (Nat.eqb (List.length (symptoms cs1)) 0));
      destruct (3 <=? turnCount cs1)%Z eqn:H3; simpl; lia.
  - destruct (wantsAnalysis (toLowerCase text)); simpl; [|lia].
    destruct (Nat.eqb (List.length (symptoms cs1)) 0); simpl; lia.
  - destruct (wantsConsultation (toLowerCase text)); simpl; lia.
Qed.

Lemma TurnsFitStage_converse
    (o : Oracle) (r : Render) (vs : VoiceService.t Render) (utterances : list string) :
  TurnsFitStage (conversationState (converse o r utterances (mount vs))).
Proof.
  rewrite conversationState_converse. simpl.
  assert (TurnsFitStage initialState) as H by reflexivity.
  revert H. generalize initialState as cs.
  induction utterances as [|u us IH]; intros cs H; simpl; [exact H|].
  apply IH. now apply TurnsFitStage_step.
Qed.

(** Counted from the initial state, the stage is greeting exactly before
    the first accepted utterance, the offer to analyze comes after three
    accepted utterances at the earliest and the analysis after four. *)
Theorem stages_need_turns
    (o : Oracle) (r : Render) (vs : VoiceService.t Render) (utterances : list string) :
  let cs := conversationState (converse o r utterances (mount vs)) in
  turnCount cs = Z.of_nat (List.length (accepted utterances)) /\
  (stage cs = greeting <-> accepted utterances = []) /\
  (stage cs = analyzing -> 3 <= List.length (accepted utterances)) /\
  (stage cs = complete -> 4 <= List.length (accepted utterances)).
Proof.
  cbv zeta.
  pose proof (TurnsFitStage_converse o r vs utterances) as Hfit.
  destruct (converse_counts o r utterances (mount vs)) as (_ & Htc).
  simpl in Htc.
  unfold TurnsFitStage in Hfit. rewrite Htc in Hfit.
  split; [exact Htc|].
  destruct (stage (conversationState (converse o r utterances (mount vs))));
    repeat split; intros; try discriminate; try lia.
  - destruct (accepted utterances); [reflexivity | simpl in Hfit; lia].
  - assert (List.length (accepted utterances) = 0) by (now rewrite H). lia.
  - assert (List.length (accepted utterances) = 0) by (now rewrite H). lia.
  - assert (List.length (accepted utterances) = 0) by (now rewrite H). lia.
Qed.

End ConversationFacts.

(** ** Replies and buttons *)

Module ReplyFacts.
Import Js AIService AIVoiceConsultation Buttons Spec Notions JsFacts ExtractorFacts.
Import EngineFacts ConversationFacts.

(** Of the three scripted follow-up questions only the second is ever
    asked: counted from the initial state, the reply in the stage collecting
    is that question on the second accepted utterance, and from the third on
    either the request to describe physical sensations (no symptom on record)
    or the summary that opens the stage analyzing. *)
Theorem only_second_question_is_asked
    (o : Oracle) (r : Render) (vs : VoiceService.t Render)
    (utterances : list string) (text : string) :
  let c := converse o r utterances (mount vs) in
  let c' := handleUserMessage o r text c in
  stage (conversationState c) = collecting ->
  isBlank text = false ->
  (turnCount (conversationState c) = 1%Z /\
   spoken c' = Some "How severe would you say they are?") \/
  ((2 <= turnCount (conversationState c))%Z /\
   symptoms (conversationState c') = [] /\
   spoken c' = Some "I'm having trouble identifying specific symptoms. Could you describe what physical sensations or problems you're experiencing?") \/
  ((2 <= turnCount (conversationState c))%Z /\
   stage (conversationState c') = analyzing /\
   spoken c' = Some ("Okay, I've noted: " ++ join ", " (symptoms (conversationState c'))
                     ++ ". Anything else, or should I analyze these symptoms?")).
Proof.
  cbv zeta. intros Hst Hb.
  pose proof (TurnsFitStage_converse o r vs utterances) as Hfit.
  unfold TurnsFitStage in Hfit. rewrite Hst in Hfit.
  destruct (handleUserMessage_engine o r text (converse o r utterances (mount vs)) Hb)
    as (Hcs & Hsp & _).
  rewrite Hcs, Hsp.
  set (cs := conversationState (converse o r utterances (mount vs))) in *.
  unfold engineStep, getAIResponseForState.
  assert (stage (recordUtterance text cs) = collecting) as Hst1 by exact Hst.
  assert (turnCount (recordUtterance text cs) = (turnCount cs + 1)%Z) as Htc1
      by reflexivity.
  remember (recordUtterance text cs) as cs1 eqn:Ecs1. clear Ecs1.
  rewrite Hst1, Htc1.
  destruct (symptoms cs1) as [|s0 rest] eqn:Hs;
    destruct (3 <=? turnCount cs + 1)%Z eqn:H3; cbn [negb andb Nat.eqb length fst snd].
  - right. left. simpl. repeat split; [lia | exact Hs].
  - left. assert (turnCount cs = 1%Z) as -> by lia. split; reflexivity.
  - right. right. simpl. rewrite Hs. repeat split. lia.
  - left. assert (turnCount cs = 1%Z) as -> by lia. split; reflexivity.
Qed.

Lemma only_second_question_is_asked_witness :
  spoken (handleUserMessage unreachable firstRender "since yesterday"
            (converse unreachable firstRender ["I feel dizzy"] (mount idleService)))
  = Some "How severe would you say they are?".
Proof.
  pose proof (only_second_question_is_asked unreachable firstRender idleService
                ["I feel dizzy"] "since yesterday") as H.
  cbv zeta in H.
  assert (stage (conversationState
                   (converse unreachable firstRender ["I feel dizzy"] (mount idleService)))
          = collecting) as Hst by (vm_compute; reflexivity).
  destruct (H Hst eq_refl) as [[_ E] | [(Ht & _) | (Ht & _)]]; [exact E | |];
    vm_compute in Ht; exfalso; apply Ht; reflexivity.
Defined.

Lemma wantsAnalysis_not_blank (text : string) :
  wantsAnalysis (toLowerCase text) = true -> isBlank text = false.
Proof.
  unfold wantsAnalysis. rewrite !orb_true_iff, !includes_iff.
  intros [[[[[H|H]|H]|H]|H]|H];
    (eapply Substring_not_blank; [|exact H]); reflexivity.
Qed.

(** The conversation does not stall when the analysis service cannot be
    built: without an API key a completion signal in the stage analyzing
    still completes the conversation, and the reply lists the recorded
    symptoms and proposes the hand-off. *)
Theorem analysis_without_api_key_still_completes
    (o : Oracle) (r : Render) (text : string) (c : Component) :
  apiKey o = false ->
  stage (conversationState c) = analyzing ->
  symptoms (conversationState c) <> [] ->
  wantsAnalysis (toLowerCase text) = true ->
  let c' := handleUserMessage o r text c in
  stage (conversationState c') = complete /\
  spoken c' = Some ("I've recorded your symptoms: "
                    ++ join ", " (symptoms (conversationState c'))
                    ++ ". Would you like me to create a consultation request for a doctor to review?").
Proof.
  intros Hkey Hst Hsy Hw. cbv zeta.
  pose proof (wantsAnalysis_not_blank text Hw) as Hb.
  destruct (handleUserMessage_engine o r text c Hb) as (Hcs & Hsp & _).
  rewrite Hcs, Hsp.
  pose proof (symptoms_recordUtterance_nonempty text _ Hsy) as Hne.
  unfold engineStep, getAIResponseForState.
  assert (stage (recordUtterance text (conversationState c)) = analyzing) as Hst1
      by exact Hst.
  remember (recordUtterance text (conversationState c)) as cs1 eqn:Ecs1. clear Ecs1.
  rewrite Hst1, Hw.
  destruct (symptoms cs1) as [|s0 rest] eqn:Hs; [contradiction|].
  simpl. rewrite Hs. split; [reflexivity|].
  unfold performAnalysis, getAIService. rewrite Hkey. simpl. now rewrite Hs.
Qed.

Lemma analysis_without_api_key_still_completes_witness :
  stage (conversationState
           (handleUserMessage
              {| apiKey := false; chatCompletion := fun _ => Throw;
                 parseJSON := fun _ => SyntaxError |}
              firstRender "yes, analyze"
              (converse unreachable firstRender
                 ["my throat is sore"; "since monday"; "quite bad"] (mount idleService))))
  = complete.
Proof.
  apply (analysis_without_api_key_still_completes
           {| apiKey := false; chatCompletion := fun _ => Throw;
              parseJSON := fun _ => SyntaxError |}
           firstRender "yes, analyze"
           (converse unreachable firstRender
              ["my throat is sore"; "since monday"; "quite bad"] (mount idleService))).
  - reflexivity.
  - vm_compute. reflexivity.
  - vm_compute. discriminate.
  - vm_compute. reflexivity.
Defined.

End ReplyFacts.

Module ButtonFacts.
Import Js AIService AIVoiceConsultation Buttons Spec Notions JsFacts ExtractorFacts.
Import EngineFacts ConversationFacts.

(** Counted from the initial state, the Create Consultation button is on
    screen exactly while the stage is complete: a conversation never
    completes without a symptom on record. *)
Theorem create_button_iff_complete
    (o : Oracle) (r : Render) (vs : VoiceService.t Render) (utterances : list string) :
  let c := converse o r utterances (mount vs) in
  createConsultationShown c = true <-> stage (conversationState c) = complete.
Proof.
  cbv zeta. unfold createConsultationShown.
  pose proof (SymptomsOnRecord_converse o r utterances (mount vs) I) as Hinv.
  unfold SymptomsOnRecord in Hinv.
  destruct (stage (conversationState (converse o r utterances (mount vs)))); simpl;
    try (split; discriminate).
  destruct (symptoms (conversationState (converse o r utterances (mount vs))));
    [contradiction | simpl; tauto].
Qed.

(** Pressing Create Consultation hands over the recorded symptoms and the
    accepted utterances, joined by blank lines; it leaves the conversation as
    it is, takes back the intent to resume capture and forgets the debounce
    timer.  Without the callback nothing is handed over. *)
Theorem handleCreateConsultation_hands_off
    (o : Oracle) (r : Render) (vs : VoiceService.t Render) (utterances : list string) :
  let c := converse o r utterances (mount vs) in
  let c' := fst (handleCreateConsultation true c) in
  snd (handleCreateConsultation true c)
  = Some (symptoms (conversationState c), join (nl ++ nl) (accepted utterances)) /\
  snd (handleCreateConsultation false c) = None /\
  conversationState c' = conversationState c /\
  messages c' = messages c /\
  shouldResumeListening c' = false /\
  isListening c' = false /\
  processingTimeoutRef c' = None.
Proof.
  cbv zeta.
  destruct (converse_counts o r utterances (mount vs)) as (Htr & _).
  simpl in Htr.
  set (c := converse o r utterances (mount vs)) in *. clearbody c.
  unfold handleCreateConsultation, handleStopListening, clearProcessingTimeout.
  destruct c as [li sp pr ms it ar cs sr [id|] v ts nt tt]; simpl in *;
    rewrite Htr; repeat split.
Qed.

(** Switching auto-listen off stops the loop: the conversation and the
    messages stay, capture is off, and neither the end or failure of playback
    nor a grace, retry or debounce timer of any render, run on the state the
    button leaves, restarts capture or commits an utterance. *)
Theorem auto_listen_off_stops_the_loop
    (o : Oracle) (r r' : Render) (startOk : bool) (c : Component) :
  r_autoResumeListen r = true ->
  (VoiceService.isListening (voiceService c) = true ->
   VoiceService.recognition (voiceService c) = true) ->
  let c' := toggleAutoListen r c in
  autoResumeListen c' = false /\
  conversationState c' = conversationState c /\
  messages c' = messages c /\
  VoiceService.isListening (voiceService c') = false /\
  timers (speakOnEnd r' c') = timers c' /\
  timers (speakOnError r' c') = timers c' /\
  runTimer o startOk (GraceTimer r') c' = (c', None) /\
  runTimer o startOk (CaptureRetryTimer r') c' = (c', None) /\
  (forall transcript, runTimer o startOk (DebounceTimer r' transcript) c' = (c', None)).
Proof.
  intros Hr Hrec. cbv zeta.
  unfold toggleAutoListen. rewrite Hr. simpl.
  unfold handleStopListening, clearProcessingTimeout, VoiceService.stopListening,
    VoiceService.getIsListening.
  destruct c as [li sp pr ms it ar cs sr ref [rec hd lis spk cur] ts nt tt].
  simpl in Hrec.
  destruct rec, lis, ref as [id|]; simpl;
    try (now discriminate Hrec);
    repeat split; intros; rewrite ?andb_false_r; reflexivity.
Qed.

Lemma auto_listen_off_stops_the_loop_witness :
  runTimer unreachable true (GraceTimer firstRender)
    (toggleAutoListen firstRender
       (converse unreachable firstRender ["I feel dizzy"] (mount idleService)))
  = (toggleAutoListen firstRender
       (converse unreachable firstRender ["I feel dizzy"] (mount idleService)), None).
Proof.
  refine (proj1 (proj2 (proj2 (proj2 (proj2 (proj2 (proj2
           (auto_listen_off_stops_the_loop unreachable firstRender firstRender true
              (converse unreachable firstRender ["I feel dizzy"] (mount idleService))
              eq_refl _)))))))).
  vm_compute. discriminate.
Defined.

End ButtonFacts.

(** ** The voice policy and the symptom form *)

Module VoiceFacts.
Import Js Voices.

Lemma hd_error_member (voices : list Voice) (voice : Voice) :
  hd_error voices = Some voice -> In voice voices.
Proof.
  destruct voices as [|first rest]; simpl; [discriminate|].
  intros [= ->]. now left.
Qed.

(** The voice policy in three tiers: no voice is chosen only when the
    browser offers none; the chosen voice is one of those offered; it is an
    English voice whenever one is offered, and an English voice with a
    female-sounding name whenever one is offered. *)
Theorem getPreferredVoice_tiers (voices : list Voice) :
  (getPreferredVoice voices = None <-> voices = []) /\
  (forall chosen, getPreferredVoice voices = Some chosen ->
     In chosen voices /\
     ((exists e, In e voices /\ isEnglish e = true) -> isEnglish chosen = true) /\
     ((exists f, In f voices /\ isEnglish f = true /\ soundsFemale f = true) ->
      soundsFemale chosen = true)).
Proof.
  unfold getPreferredVoice.
  destruct (find soundsFemale (filter isEnglish voices)) as [femaleVoice|] eqn:Hfind.
  - apply find_some in Hfind. destruct Hfind as [Hin Hfem].
    apply filter_In in Hin. destruct Hin as [Hin Heng].
    split.
    + split; [discriminate|]. intros ->. contradiction.
    + intros chosen [= <-]. auto.
  - pose proof (find_none _ _ Hfind) as Hnone.
    destruct (filter isEnglish voices) as [|first rest] eqn:Heng.
    + split.
      * destruct voices; simpl; split; congruence.
      * intros chosen Hhd. split; [now apply hd_error_member|]. split.
        -- intros (e & He & Hen).
           assert (In e (filter isEnglish voices)) as Hin by (apply filter_In; auto).
           rewrite Heng in Hin. contradiction.
        -- intros (f & Hf & Hen & _).
           assert (In f (filter isEnglish voices)) as Hin by (apply filter_In; auto).
           rewrite Heng in Hin. contradiction.
    + assert (In first (filter isEnglish voices)) as Hin by (rewrite Heng; now left).
      apply filter_In in Hin. destruct Hin as [Hin Hen].
      split.
      * split; [discriminate|]. intros ->. contradiction.
      * intros chosen [= <-]. split; [exact Hin|]. split; [auto|].
        intros (f & Hf & Hfen & Hfem).
        assert (In f (first :: rest)) as Hin' by (rewrite <- Heng; apply filter_In; auto).
        rewrite (Hnone f Hin') in Hfem. discriminate.
Qed.

End VoiceFacts.

Module DashboardFacts.
Import Js AIService PatientDashboard JsFacts AIServiceFacts.

Lemma toggleSymptom_membership (symptom : string) (prev : list string) :
  (In symptom (toggleSymptom symptom prev) <-> ~ In symptom prev) /\
  (forall other, other <> symptom ->
     (In other (toggleSymptom symptom prev) <-> In other prev)).
Proof.
  unfold toggleSymptom.
  destruct (arrayIncludes prev symptom) eqn:Hinc.
  - apply arrayIncludes_iff in Hinc. repeat split.
    + intros Hin. apply filter_In in Hin. destruct Hin as [_ Hne].
      rewrite String.eqb_refl in Hne. discriminate.
    + intros Hn. contradiction.
    + intros Hin. apply filter_In in Hin. tauto.
    + intros Hin. apply filter_In. split; [exact Hin|].
      destruct (String.eqb_spec other symptom); [contradiction | reflexivity].
  - assert (~ In symptom prev) as Hn.
    { intros Hin. apply arrayIncludes_iff in Hin. congruence. }
    repeat split.
    + intros _. exact Hn.
    + intros _. apply in_or_app. right. now left.
    + intros Hin. apply in_app_or in Hin. destruct Hin as [Hin|[Heq|[]]]; [exact Hin|].
      symmetry in Heq. contradiction.
    + intros Hin. apply in_or_app. now left.
Qed.

(** Toggling a symptom flips its membership in the selection, leaves every
    other symptom as it was, and keeps a duplicate-free selection
    duplicate-free. *)
Theorem toggleSymptom_flips (symptom : string) (prev : list string) :
  (In symptom (toggleSymptom symptom prev) <-> ~ In symptom prev) /\
  (forall other, other <> symptom ->
     (In other (toggleSymptom symptom prev) <-> In other prev)) /\
  (NoDup prev -> NoDup (toggleSymptom symptom prev)).
Proof.
  destruct (toggleSymptom_membership symptom prev) as [Hself Hother].
  split; [exact Hself|]. split; [exact Hother|].
  intros Hnd. unfold toggleSymptom.
  destruct (arrayIncludes prev symptom) eqn:Hinc.
  - now apply NoDup_filter.
  - apply NoDup_app; [exact Hnd | constructor; [intros []|constructor] |].
    intros x Hx [<-|[]]. apply arrayIncludes_iff in Hx. congruence.
Qed.

(** Toggling the same symptom twice gives back the selection it started
    from: literally when the symptom was not selected, and up to the order of
    a duplicate-free selection when it was (the symptom moves to the end). *)
Theorem toggleSymptom_twice (symptom : string) (prev : list string) :
  (~ In symptom prev -> toggleSymptom symptom (toggleSymptom symptom prev) = prev) /\
  (In symptom prev ->
   toggleSymptom symptom (toggleSymptom symptom prev)
   = (filter (fun s => negb (String.eqb s symptom)) prev ++ [symptom])%list) /\
  (forall s, In s (toggleSymptom symptom (toggleSymptom symptom prev)) <-> In s prev).
Proof.
  destruct (toggleSymptom_membership symptom prev) as (Hflip & Hother).
  destruct (toggleSymptom_membership symptom (toggleSymptom symptom prev))
    as (Hflip2 & Hother2).
  split; [|split].
  - intros Hn. unfold toggleSymptom at 2.
    destruct (arrayIncludes prev symptom) eqn:Hinc.
    { apply arrayIncludes_iff in Hinc. contradiction. }
    unfold toggleSymptom.
    assert (arrayIncludes (prev ++ [symptom]) symptom = true) as ->.
    { apply arrayIncludes_iff. apply in_or_app. right. now left. }
    rewrite filter_app. simpl. rewrite String.eqb_refl. simpl.
    rewrite app_nil_r. apply forallb_filter_id. apply forallb_forall.
    intros x Hx. destruct (String.eqb_spec x symptom); [subst; contradiction|reflexivity].
  - intros Hin. unfold toggleSymptom at 2.
    apply arrayIncludes_iff in Hin. rewrite Hin.
    unfold toggleSymptom.
    destruct (arrayIncludes (filter (fun s => negb (String.eqb s symptom)) prev) symptom)
      eqn:Hinc; [|reflexivity].
    apply arrayIncludes_iff in Hinc. apply filter_In in Hinc. destruct Hinc as [_ Hne].
    rewrite String.eqb_refl in Hne. discriminate.
  - intros s. destruct (String.eqb_spec s symptom) as [->|Hne].
    + rewrite Hflip2, Hflip.
      destruct (in_dec string_dec symptom prev); tauto.
    + rewrite (Hother2 s Hne). apply Hother. exact Hne.
Qed.

(** What the Analyze button can do.  The symptoms and the description are
    never changed.  With no symptom selected or a blank description the form
    only shows the request to fill them in.  With valid input and no API key
    it shows the failure notice and keeps the previous analysis.  With valid
    input and an API key it always stores an analysis and shows no notice: a
    failing request or an unreadable reply is absorbed by the fallback of
    [analyzeSymptoms]. *)
Theorem analyzeWithAI_outcomes (o : Oracle) (f : Form) :
  let f' := analyzeWithAI o f in
  selectedSymptoms f' = selectedSymptoms f /\
  description f' = description f /\
  (((selectedSymptoms f = [] \/ isBlank (description f) = true) /\
    f' = toast "Please select symptoms and provide a description" f)
   \/
   (selectedSymptoms f <> [] /\ isBlank (description f) = false /\ apiKey o = false /\
    aiAnalysis f' = aiAnalysis f /\ analyzing f' = false /\
    toasts f' = (toasts f ++ ["AI analysis failed. Please try again."])%list)
   \/
   (selectedSymptoms f <> [] /\ isBlank (description f) = false /\ apiKey o = true /\
    aiAnalysis f' = Some (recover (analyzeSymptoms o (selectedSymptoms f) (description f))
                            (getFallbackAnalysis (selectedSymptoms f) (description f))) /\
    analyzeSymptoms o (selectedSymptoms f) (description f) <> Throw /\
    analyzing f' = false /\ toasts f' = toasts f)).
Proof.
  cbv zeta. unfold analyzeWithAI.
  destruct (selectedSymptoms f) as [|s0 rest] eqn:Hsel; simpl.
  { rewrite Hsel. repeat split. left. split; [now left | reflexivity]. }
  destruct (truthy (trim (description f))) eqn:Htrim; simpl.
  2:{ rewrite Hsel. repeat split. left. split; [|reflexivity].
      right. now apply trim_falsy_iff. }
  assert (isBlank (description f) = false) as Hb.
  { destruct (isBlank (description f)) eqn:E; [|reflexivity].
    apply trim_falsy_iff in E. congruence. }
  unfold getAIService. destruct (apiKey o) eqn:Hkey; simpl.
  - destruct (analyzeSymptoms_total o (s0 :: rest) (description f)) as [a Ha].
    rewrite Hsel, Ha. simpl. repeat split; try assumption.
    right. right. repeat split; try assumption; discriminate.
  - repeat split; try assumption.
    right. left. repeat split; try assumption; discriminate.
Qed.

End DashboardFacts.

(** ** The bookkeeping of timers *)

Module TimerFacts.
Import Js AIService AIVoiceConsultation Buttons Session Spec Notions.

Lemma ids_distinct_after_filter
    (keep : nat * (Z * Timer) -> bool) (pending : list (nat * (Z * Timer))) :
  NoDup (map fst pending) -> NoDup (map fst (filter keep pending)).
Proof.
  induction pending as [|t rest IH]; simpl; intros Hnd; [constructor|].
  inversion Hnd as [|x l Hnotin Hrest]; subst.
  destruct (keep t); simpl; [|auto].
  constructor; [|auto].
  intros Hin. apply Hnotin. apply in_map_iff in Hin.
  destruct Hin as (u & Hu & Hin). apply filter_In in Hin.
  apply in_map_iff. exists u. tauto.
Qed.

Lemma TimersOk_ext (c c' : Component) :
  timers c' = timers c ->
  nextTimer c' = nextTimer c ->
  processingTimeoutRef c' = processingTimeoutRef c ->
  TimersOk c -> TimersOk c'.
Proof. unfold TimersOk. intros -> -> ->. auto. Qed.

Lemma TimersOk_mount (vs : VoiceService.t Render) : TimersOk (mount vs).
Proof.
  unfold TimersOk. simpl. split; [|split; [|split]].
  - intros t [].
  - constructor.
  - intros t [].
  - discriminate.
Qed.

Lemma TimersOk_clearTimeout (id : nat) (c : Component) :
  TimersOk c -> TimersOk (clearTimeout id c).
Proof.
  unfold TimersOk, clearTimeout. simpl. intros (Hlt & Hnd & Hdeb & Href).
  split; [|split; [|split]].
  - intros t Hin. apply filter_In in Hin. now apply Hlt.
  - now apply ids_distinct_after_filter.
  - intros t Hin. apply filter_In in Hin. now apply Hdeb.
  - exact Href.
Qed.

Lemma TimersOk_clearProcessingTimeout (c : Component) :
  TimersOk c -> TimersOk (clearProcessingTimeout c).
Proof.
  unfold clearProcessingTimeout. destruct (processingTimeoutRef c) as [id|] eqn:Href;
    [|auto].
  unfold TimersOk, clearTimeout. simpl. intros (Hlt & Hnd & Hdeb & _).
  split; [|split; [|split]].
  - intros t Hin. apply filter_In in Hin. now apply Hlt.
  - now apply ids_distinct_after_filter.
  - intros t Hin. apply filter_In in Hin. destruct Hin as [Hin Hne].
    split; [|discriminate]. intros Hd.
    apply (Hdeb t Hin) in Hd. rewrite Href in Hd. injection Hd as Heq.
    rewrite <- Heq, Nat.eqb_refl in Hne. discriminate.
  - discriminate.
Qed.

Lemma TimersOk_setTimeout (body : Timer) (ms : Z) (c : Component) :
  isDebounce (0, (ms, body)) = false ->
  TimersOk c -> TimersOk (fst (setTimeout body ms c)).
Proof.
  unfold TimersOk, setTimeout. simpl. intros Hbody (Hlt & Hnd & Hdeb & Href).
  split; [|split; [|split]].
  - intros t Hin. apply in_app_or in Hin. destruct Hin as [Hin|[<-|[]]]; simpl.
    + specialize (Hlt t Hin). lia.
    + lia.
  - rewrite map_app. simpl. apply NoDup_app; [exact Hnd | constructor; [intros []|constructor] |].
    intros x Hx [<-|[]]. apply in_map_iff in Hx. destruct Hx as (t & Ht & Hin).
    specialize (Hlt t Hin). lia.
  - intros t Hin. apply in_app_or in Hin. destruct Hin as [Hin|[<-|[]]].
    + now apply Hdeb.
    + simpl. split.
      * unfold isDebounce in *. simpl in *. congruence.
      * intros Hid. apply Href in Hid. lia.
  - intros id Hid. apply Href in Hid. lia.
Qed.

Lemma TimersOk_captureOnResult
    (r : Render) (transcript : string) (isFinal : bool) (c : Component) :
  TimersOk c -> TimersOk (captureOnResult r transcript isFinal c).
Proof.
  unfold captureOnResult. destruct isFinal.
  2:{ apply TimersOk_ext; reflexivity. }
  intros Hok.
  assert (TimersOk (clearProcessingTimeout (setInterimTranscript EmptyString c))) as Hclr.
  { apply TimersOk_clearProcessingTimeout. revert Hok. apply TimersOk_ext; reflexivity. }
  revert Hclr. unfold clearProcessingTimeout, TimersOk, setTimeout, clearTimeout. simpl.
  destruct (processingTimeoutRef c) as [id|] eqn:Href; simpl;
    intros (Hlt & Hnd & Hdeb & _);
    (split; [|split; [|split]]).
  1,5: intros t Hin; apply in_app_or in Hin; destruct Hin as [Hin|[<-|[]]]; simpl;
      [specialize (Hlt t Hin)|]; lia.
  1,4: rewrite map_app; simpl;
    (apply NoDup_app; [exact Hnd | constructor; [intros []|constructor] |]);
    intros x Hx [<-|[]]; apply in_map_iff in Hx; destruct Hx as (t & Ht & Hin);
    specialize (Hlt t Hin); lia.
  1,3: intros t Hin; apply in_app_or in Hin; destruct Hin as [Hin|[<-|[]]];
      [|split; reflexivity];
    specialize (Hlt t Hin); split;
      [ intros Hd; apply (Hdeb t Hin) in Hd; simpl in Hd; congruence
      | intros [= Heq]; lia ].
  1,2: intros i [= <-]; lia.
Qed.

(** Peels one layer of a handler off a goal [TimersOk _]. *)
Ltac timers_ok :=
  repeat first
    [ assumption
    | apply TimersOk_clearProcessingTimeout
    | apply TimersOk_clearTimeout
    | apply TimersOk_captureOnResult
    | apply TimersOk_setTimeout; [reflexivity|]
    | match goal with
      | |- TimersOk (if ?b then _ else _) => destruct b
      | |- TimersOk (match ?x with _ => _ end) => destruct x
      | |- TimersOk (_ _ ?c) => apply (TimersOk_ext c); [reflexivity|reflexivity|reflexivity|]
      | |- TimersOk (_ _ _ ?c) =>
          apply (TimersOk_ext c); [reflexivity|reflexivity|reflexivity|]
      end ].

Lemma TimersOk_speakText (r : Render) (text : string) (c : Component) :
  TimersOk c -> TimersOk (speakText r text c).
Proof. apply TimersOk_ext; reflexivity. Qed.

Lemma TimersOk_captureOnError (r : Render) (error : string) (c : Component) :
  TimersOk c -> TimersOk (captureOnError r error c).
Proof. intros Hok. unfold captureOnError. cbv zeta. timers_ok. Qed.

Lemma TimersOk_handleStartListening (r : Render) (startOk : bool) (c : Component) :
  TimersOk c -> TimersOk (handleStartListening r startOk c).
Proof.
  intros Hok. unfold handleStartListening. cbv zeta.
  destruct (negb (VoiceService.isSpeechRecognitionSupported (voiceService c))).
  { timers_ok. }
  match goal with
  | |- context [VoiceService.startListening ?v ?k ?b] =>
      destruct (VoiceService.startListening v k b) as [vs failure]
  end.
  apply (TimersOk_ext
           (match failure with
            | Some error =>
                captureOnError r error
                  (setVoiceService vs
                     (setInterimTranscript EmptyString
                        (if r_isSpeaking r
                         then setIsSpeaking false
                                (setVoiceService
                                   (VoiceService.stopSpeaking (voiceService c)) c)
                         else c)))
            | None =>
                setVoiceService vs
                  (setInterimTranscript EmptyString
                     (if r_isSpeaking r
                      then setIsSpeaking false
                             (setVoiceService
                                (VoiceService.stopSpeaking (voiceService c)) c)
                      else c))
            end)); try reflexivity.
  destruct failure as [error|]; [apply TimersOk_captureOnError|];
    (apply (TimersOk_ext
              (if r_isSpeaking r
               then setIsSpeaking false
                      (setVoiceService (VoiceService.stopSpeaking (voiceService c)) c)
               else c)); [reflexivity..|]);
    destruct (r_isSpeaking r); timers_ok.
Qed.

Lemma TimersOk_handleStopListening (c : Component) :
  TimersOk c -> TimersOk (handleStopListening c).
Proof. intros Hok. unfold handleStopListening. cbv zeta. timers_ok. Qed.

Lemma TimersOk_handleStopSpeaking (r : Render) (c : Component) :
  TimersOk c -> TimersOk (handleStopSpeaking r c).
Proof. intros Hok. unfold handleStopSpeaking. cbv zeta. timers_ok. Qed.

Lemma TimersOk_speakOnEnd (r : Render) (c : Component) :
  TimersOk c -> TimersOk (speakOnEnd r c).
Proof. intros Hok. unfold speakOnEnd. cbv zeta. timers_ok. Qed.

Lemma TimersOk_speakOnError (r : Render) (c : Component) :
  TimersOk c -> TimersOk (speakOnError r c).
Proof. intros Hok. unfold speakOnError. cbv zeta. timers_ok. Qed.

Lemma TimersOk_handleUserMessageBegin
    (o : Oracle) (r : Render) (text : string) (c : Component) :
  TimersOk c -> TimersOk (fst (handleUserMessageBegin o r text c)).
Proof.
  intros Hok. unfold handleUserMessageBegin. cbv zeta.
  destruct (negb (truthy (trim text))); simpl; [assumption|].
  timers_ok.
Qed.

Lemma TimersOk_handleUserMessageResume
    (r : Render) (reply : Result Response) (c : Component) :
  TimersOk c -> TimersOk (handleUserMessageResume r reply c).
Proof.
  intros Hok. unfold handleUserMessageResume. cbv zeta.
  apply (TimersOk_ext c); [| | |assumption];
    destruct reply as [aiResponse|]; try destruct (nextStage aiResponse); reflexivity.
Qed.

Lemma TimersOk_runTimer
    (o : Oracle) (startOk : bool) (t : Timer) (c : Component) :
  TimersOk c -> TimersOk (fst (runTimer o startOk t c)).
Proof.
  intros Hok. destruct t as [r acc|r|r|r]; simpl.
  - destruct (truthy acc && VoiceService.getIsListening (voiceService c)); [|assumption].
    pose proof (TimersOk_handleUserMessageBegin o r acc c Hok) as H.
    destruct (handleUserMessageBegin o r acc c) as [c1 reply]. exact H.
  - destruct (shouldResumeListening c && negb (r_isSpeaking r) && negb (r_isProcessing r));
      simpl; [now apply TimersOk_handleStartListening | assumption].
  - destruct (shouldResumeListening c && negb (r_isProcessing r));
      simpl; [now apply TimersOk_handleStartListening | assumption].
  - now apply TimersOk_handleStartListening.
Qed.

Lemma TimersOk_step (o : Oracle) (e : Event) (s : State) :
  TimersOk (component s) -> TimersOk (component (step o e s)).
Proof.
  intros Hok. destruct e as [transcript isFinal|error| | | | |id startOk|n]; simpl.
  - unfold recognitionResult. destruct (VoiceService.handlers _); timers_ok.
  - unfold recognitionError. destruct (VoiceService.handlers _); [|assumption].
    apply TimersOk_captureOnError. timers_ok.
  - destruct (VoiceService.handlers _); timers_ok.
  - destruct (VoiceService.currentUtterance _) as [[text r]|]; timers_ok.
  - unfold utteranceEnd. destruct (VoiceService.currentUtterance _) as [[text r]|];
      [|assumption].
    apply TimersOk_speakOnEnd. timers_ok.
  - unfold utteranceError. destruct (VoiceService.currentUtterance _) as [[text r]|];
      [|assumption].
    apply TimersOk_speakOnError. timers_ok.
  - unfold fireTimer.
    destruct (find _ (timers (component s))) as [[i [ms body]]|]; [|assumption].
    pose proof (TimersOk_runTimer o startOk body (clearTimeout id (component s))
                  (TimersOk_clearTimeout id _ Hok)) as H.
    destruct (runTimer o startOk body (clearTimeout id (component s))) as [c1 call].
    exact H.
  - destruct (nth_error (suspended s) n) as [k|]; [|assumption].
    simpl. now apply TimersOk_handleUserMessageResume.
Qed.

Lemma TimersOk_start (r : Render) (recognitionSupported : bool) (entry : Entry) :
  TimersOk (component (start r recognitionSupported entry)).
Proof.
  unfold start. cbv zeta. cbn [component].
  set (mounted := mountEffect _ (mount _)).
  assert (TimersOk mounted) as Hm.
  { unfold mounted, mountEffect. apply TimersOk_speakText.
    timers_ok. apply TimersOk_mount. }
  clearbody mounted.
  destruct entry as [startOk|].
  - apply TimersOk_handleStartListening. unfold utteranceEnd.
    destruct (VoiceService.currentUtterance _) as [[text r']|]; [|assumption].
    apply TimersOk_speakOnEnd. timers_ok.
  - now apply TimersOk_handleStopSpeaking.
Qed.

Lemma one_debounce (c : Component) :
  TimersOk c -> List.length (filter isDebounce (timers c)) <= 1.
Proof.
  unfold TimersOk. intros (_ & Hnd & Hdeb & _).
  assert (forall t, In t (filter isDebounce (timers c)) ->
                    processingTimeoutRef c = Some (fst t)) as Hall.
  { intros t Hin. apply filter_In in Hin. now apply Hdeb. }
  pose proof (ids_distinct_after_filter isDebounce _ Hnd) as Hnd'.
  destruct (filter isDebounce (timers c)) as [|t1 [|t2 rest]]; simpl; try lia.
  exfalso. pose proof (Hall t1 (or_introl eq_refl)) as H1.
  pose proof (Hall t2 (or_intror (or_introl eq_refl))) as H2.
  rewrite H1 in H2. injection H2 as H2.
  simpl in Hnd'. inversion Hnd' as [|x l Hnotin _]; subst.
  apply Hnotin. left. now symmetry.
Qed.

(** Whatever the order in which recognizer, synthesizer, timer and reply
    events arrive after the session starts, timer identifiers are never
    reused, and at most one debounce timer is pending: it is the one that the
    latest final result set and that [processingTimeoutRef] holds, so two
    utterances are never waiting to be committed at once. *)
Theorem one_debounce_timer_at_most
    (o : Oracle) (r : Render) (recognitionSupported : bool) (entry : Entry)
    (events : list Event) :
  let s := fold_left (fun s e => step o e s) events (start r recognitionSupported entry) in
  NoDup (map fst (timers (component s))) /\
  List.length (filter isDebounce (timers (component s))) <= 1 /\
  (forall t, In t (timers (component s)) ->
             (isDebounce t = true <-> processingTimeoutRef (component s) = Some (fst t))).
Proof.
  cbv zeta.
  assert (TimersOk (component
            (fold_left (fun s e => step o e s) events (start r recognitionSupported entry))))
    as Hok.
  { generalize (TimersOk_start r recognitionSupported entry).
    generalize (start r recognitionSupported entry) as s.
    induction events as [|e rest IH]; simpl; intros s Hs; [exact Hs|].
    apply IH. now apply TimersOk_step. }
  split; [apply Hok|]. split; [now apply one_debounce | apply Hok].
Qed.

End TimerFacts.

(** ** The capture loop *)

Module LoopFacts.
Import Js AIService AIVoiceConsultation Buttons Session Spec Notions TimerFacts.

Lemma filter_none (keep : nat * (Z * Timer) -> bool) (pending : list (nat * (Z * Timer))) :
  (forall t, In t pending -> keep t = false) -> filter keep pending = [].
Proof.
  induction pending as [|t rest IH]; simpl; intros H; [reflexivity|].
  rewrite (H t (or_introl eq_refl)). apply IH. intros u Hu. apply H. now right.
Qed.

Lemma filter_filter_same
    (keep pick : nat * (Z * Timer) -> bool) (pending : list (nat * (Z * Timer))) :
  (forall t, In t pending -> pick t = true -> keep t = true) ->
  filter pick (filter keep pending) = filter pick pending.
Proof.
  induction pending as [|t rest IH]; simpl; intros H; [reflexivity|].
  assert (filter pick (filter keep rest) = filter pick rest) as IH'.
  { apply IH. intros u Hu. apply H. now right. }
  destruct (keep t) eqn:Hk; simpl.
  - now rewrite IH'.
  - destruct (pick t) eqn:Hp; [|exact IH'].
    rewrite (H t (or_introl eq_refl) Hp) in Hk. discriminate.
Qed.

Lemma no_debounce_without_ref (c : Component) :
  TimersOk c -> processingTimeoutRef c = None -> filter isDebounce (timers c) = [].
Proof.
  intros (_ & _ & Hdeb & _) Href. apply filter_none. intros t Hin.
  destruct (isDebounce t) eqn:Hd; [|reflexivity].
  apply (Hdeb t Hin) in Hd. congruence.
Qed.

Lemma processingTimeoutRef_cleared (c : Component) :
  processingTimeoutRef (clearProcessingTimeout c) = None.
Proof.
  unfold clearProcessingTimeout.
  destruct (processingTimeoutRef c) eqn:Href; [reflexivity | exact Href].
Qed.

Lemma clearProcessingTimeout_timers (c : Component) :
  TimersOk c ->
  filter isDebounce (timers (clearProcessingTimeout c)) = [] /\
  filter (fun t => negb (isDebounce t)) (timers (clearProcessingTimeout c))
  = filter (fun t => negb (isDebounce t)) (timers c).
Proof.
  intros Hok. split.
  - apply no_debounce_without_ref;
      [now apply TimersOk_clearProcessingTimeout | apply processingTimeoutRef_cleared].
  - unfold clearProcessingTimeout.
    destruct (processingTimeoutRef c) as [id|] eqn:Href; [|reflexivity].
    simpl. apply filter_filter_same. intros t Hin Hnd.
    destruct Hok as (_ & _ & Hdeb & _).
    destruct (Nat.eqb_spec (fst t) id) as [Heq|Hne]; [|reflexivity].
    assert (isDebounce t = true) as Hd by (apply (Hdeb t Hin); congruence).
    rewrite Hd in Hnd. discriminate.
Qed.

(** A final result supersedes the one before it: afterwards exactly one
    debounce timer is pending, it carries the transcript of this result
    alone, and the timers that restart capture are the ones that were
    pending before.  Transcripts of successive final results are not
    accumulated. *)
Theorem latest_final_result_supersedes
    (r : Render) (transcript : string) (c : Component) :
  TimersOk c ->
  let c' := captureOnResult r transcript true c in
  filter isDebounce (timers c') = [(nextTimer c, (2000%Z, DebounceTimer r transcript))] /\
  filter (fun t => negb (isDebounce t)) (timers c')
  = filter (fun t => negb (isDebounce t)) (timers c) /\
  conversationState c' = conversationState c /\
  messages c' = messages c.
Proof.
  intros Hok. cbv zeta.
  destruct (clearProcessingTimeout_timers c Hok) as [Hnone Hsame].
  assert (timers (captureOnResult r transcript true c)
          = (timers (clearProcessingTimeout c)
             ++ [(nextTimer c, (2000%Z, DebounceTimer r transcript))])%list) as Ht.
  { unfold captureOnResult, clearProcessingTimeout, setTimeout. simpl.
    destruct (processingTimeoutRef c); reflexivity. }
  rewrite Ht, !filter_app, Hnone, Hsame. simpl.
  repeat split; try apply app_nil_r;
    unfold captureOnResult, setTimeout; simpl;
    destruct (processingTimeoutRef c); reflexivity.
Qed.

Lemma latest_final_result_supersedes_witness :
  filter isDebounce
    (timers (captureOnResult firstRender "a headache" true
               (captureOnResult firstRender "I have" true (mount idleService))))
  = [(1, (2000%Z, DebounceTimer firstRender "a headache"))].
Proof.
  refine (proj1 (latest_final_result_supersedes firstRender "a headache"
                   (captureOnResult firstRender "I have" true (mount idleService)) _)).
  apply TimersOk_captureOnResult, TimersOk_mount.
Defined.

(** The Stop button discards the utterance that waits to be committed and
    nothing else: no debounce timer is pending afterwards, the other timers,
    the conversation and the messages are as before. *)
Theorem handleStopListening_discards_pending (c : Component) :
  TimersOk c ->
  let c' := handleStopListening c in
  filter isDebounce (timers c') = [] /\
  filter (fun t => negb (isDebounce t)) (timers c')
  = filter (fun t => negb (isDebounce t)) (timers c) /\
  conversationState c' = conversationState c /\
  messages c' = messages c /\
  shouldResumeListening c' = false.
Proof.
  intros Hok. cbv zeta. unfold handleStopListening. cbv zeta.
  set (c1 := setShouldResumeListening false _).
  assert (TimersOk c1) as Hok1 by (revert Hok; apply TimersOk_ext; reflexivity).
  destruct (clearProcessingTimeout_timers c1 Hok1) as [Hnone Hsame].
  split; [exact Hnone|]. split; [exact Hsame|].
  unfold clearProcessingTimeout.
  destruct (processingTimeoutRef c1); repeat split.
Qed.

Lemma handleStopListening_discards_pending_witness :
  filter isDebounce
    (timers (handleStopListening
               (captureOnResult firstRender "I have" true (mount idleService))))
  = [].
Proof.
  refine (proj1 (handleStopListening_discards_pending
                   (captureOnResult firstRender "I have" true (mount idleService)) _)).
  apply TimersOk_captureOnResult, TimersOk_mount.
Defined.

Lemma find_fresh (id : nat) (pending : list (nat * (Z * Timer))) (t : Z * Timer) :
  (forall u, In u pending -> fst u < id) ->
  find (fun u => Nat.eqb (fst u) id) (pending ++ [(id, t)]) = Some (id, t).
Proof.
  induction pending as [|u rest IH]; simpl; intros Hlt.
  - now rewrite Nat.eqb_refl.
  - destruct (Nat.eqb_spec (fst u) id) as [Heq|Hne].
    + specialize (Hlt u (or_introl eq_refl)). lia.
    + apply IH. intros v Hv. apply Hlt. now right.
Qed.

(** The loop re-arms itself: when the reply has been spoken to its end
    outside the stage complete, with auto-listen on and the intent to resume
    standing, a grace timer is set, and when it fires capture is on again,
    playback is off, and the conversation is as it was. *)
Theorem loop_rearms_capture
    (o : Oracle) (r : Render) (text : string) (c : Component) :
  VoiceService.currentUtterance (voiceService c) = Some (text, r) ->
  VoiceService.recognition (voiceService c) = true ->
  shouldResumeListening c = true ->
  r_autoResumeListen r = true ->
  r_isProcessing r = false ->
  stage (conversationState c) <> complete ->
  TimersOk c ->
  let c1 := utteranceEnd c in
  let c2 := fst (fireTimer o true (nextTimer c) c1) in
  timers c1 = (timers c ++ [(nextTimer c, (800%Z, GraceTimer r))])%list /\
  VoiceService.isListening (voiceService c2) = true /\
  isListening c2 = true /\
  VoiceService.speaking (voiceService c2) = false /\
  conversationState c2 = conversationState c /\
  filter startsCapture (timers c2) = filter startsCapture (timers c).
Proof.
  intros Hcur Hrec Hres Hauto Hproc Hstage (Hlt & _) . cbv zeta.
  assert (Stage_eqb (stage (conversationState c)) complete = false) as Hneq.
  { destruct (stage (conversationState c)); try reflexivity. now contradiction Hstage. }
  unfold utteranceEnd. rewrite Hcur. unfold speakOnEnd. cbv zeta.
  cbn [shouldResumeListening conversationState setIsSpeaking setVoiceService].
  rewrite Hres, Hauto, Hneq. cbn [andb negb].
  split; [reflexivity|].
  unfold fireTimer, setTimeout. cbn [fst timers nextTimer setTimers setIsSpeaking setVoiceService].
  rewrite (find_fresh (nextTimer c) (timers c) (800%Z, GraceTimer r) Hlt).
  cbn [runTimer]. unfold clearTimeout.
  cbn [shouldResumeListening setTimers setIsSpeaking setVoiceService].
  rewrite Hres, Hproc. cbn [andb negb fst].
  destruct c as [li sp pr ms it ar cs sr ref [rec hd lis spk cur] ts nt tt].
  simpl in Hrec, Hlt |- *. subst rec.
  unfold handleStartListening, VoiceService.isSpeechRecognitionSupported,
    VoiceService.startListening, VoiceService.stopSpeaking, VoiceService.stopListening.
  assert (filter (fun t => negb (Nat.eqb (fst t) nt)) (ts ++ [(nt, (800%Z, GraceTimer r))])
          = ts) as Hts.
  { rewrite filter_app. simpl. rewrite Nat.eqb_refl. simpl. rewrite app_nil_r.
    apply forallb_filter_id. apply forallb_forall. intros t Hin.
    specialize (Hlt t Hin). destruct (Nat.eqb_spec (fst t) nt); [lia|reflexivity]. }
  simpl. rewrite Hts.
  destruct (r_isSpeaking r), lis; simpl; repeat split.
Qed.

Lemma loop_rearms_capture_witness :
  VoiceService.isListening
    (voiceService
       (fst (fireTimer unreachable true 0
               (utteranceEnd
                  (speakText firstRender "How severe would you say they are?"
                     (handleStartListening firstRender true (mount idleService)))))))
  = true.
Proof.
  refine (proj1 (proj2
           (loop_rearms_capture unreachable firstRender
              "How severe would you say they are?"
              (speakText firstRender "How severe would you say they are?"
                 (handleStartListening firstRender true (mount idleService)))
              eq_refl eq_refl eq_refl eq_refl eq_refl _ _))).
  - vm_compute. discriminate.
  - apply TimersOk_speakText, TimersOk_handleStartListening, TimersOk_mount.
Defined.

End LoopFacts.

(** ** The two channels of the voice service *)

Module VoiceServiceFacts.
Import Js.

Section Channels.
Variable K : Type.
Implicit Types (vs : VoiceService.t K) (k : K).

(** What [startListening] leaves behind.  It reports a failure exactly when
    recognition is not supported or [recognition.start()] throws; capture is
    on afterwards exactly when it reports none, whether or not a session was
    running before; unless recognition is unsupported the new callbacks are
    installed, also when the start fails; playback is never touched. *)
Theorem startListening_outcome vs k (startOk : bool) :
  let vs' := fst (VoiceService.startListening vs k startOk) in
  let failure := snd (VoiceService.startListening vs k startOk) in
  (failure = None <-> VoiceService.recognition vs = true /\ startOk = true) /\
  VoiceService.isListening vs'
  = (if VoiceService.recognition vs then startOk else VoiceService.isListening vs) /\
  VoiceService.handlers vs'
  = (if VoiceService.recognition vs then Some k else VoiceService.handlers vs) /\
  VoiceService.recognition vs' = VoiceService.recognition vs /\
  VoiceService.speaking vs' = VoiceService.speaking vs /\
  VoiceService.currentUtterance vs' = VoiceService.currentUtterance vs.
Proof.
  cbv zeta. unfold VoiceService.startListening, VoiceService.stopListening.
  destruct vs as [rec hd lis spk cur]. simpl.
  destruct rec, lis, startOk; simpl; repeat split; try tauto;
    try discriminate; intros [H1 H2]; discriminate.
Qed.

(** A new utterance replaces the one being spoken: speaking twice leaves
    the service as speaking the second text alone would, with that text as
    the current utterance; capture is never touched. *)
Theorem speak_supersedes vs (first second : string) (k1 k2 : K) :
  VoiceService.speak (VoiceService.speak vs first k1) second k2
  = VoiceService.speak vs second k2 /\
  VoiceService.currentUtterance (VoiceService.speak vs second k2) = Some (second, k2) /\
  VoiceService.speaking (VoiceService.speak vs second k2) = true /\
  VoiceService.isListening (VoiceService.speak vs second k2) = VoiceService.isListening vs /\
  VoiceService.handlers (VoiceService.speak vs second k2) = VoiceService.handlers vs.
Proof.
  unfold VoiceService.speak, VoiceService.stopSpeaking.
  destruct vs as [rec hd lis spk cur]. simpl.
  destruct spk; simpl; repeat split.
Qed.

(** [cleanup] ends playback, ends capture wherever recognition exists,
    keeps the installed callbacks, and doing it twice changes nothing more. *)
Theorem cleanup_releases_both_channels vs :
  VoiceService.speaking (VoiceService.cleanup vs) = false /\
  VoiceService.isListening (VoiceService.cleanup vs)
  = (VoiceService.isListening vs && negb (VoiceService.recognition vs)) /\
  VoiceService.handlers (VoiceService.cleanup vs) = VoiceService.handlers vs /\
  VoiceService.cleanup (VoiceService.cleanup vs) = VoiceService.cleanup vs.
Proof.
  unfold VoiceService.cleanup, VoiceService.stopSpeaking, VoiceService.stopListening.
  destruct vs as [rec hd lis spk cur]. simpl.
  destruct rec, lis, spk; simpl; repeat split.
Qed.

End Channels.

End VoiceServiceFacts.
